(** * bookeditor: selection resolution, edit sessions, diff display and
      version history

    The web client (ManuscriptViewer, BookEditor, EditConsole, DiffViewer,
    VersionHistory and the API client) is embedded from its TypeScript
    source.  The version store and the edit-session engine live in the
    Python service, which is not part of the sources at hand; they are
    modelled from the specification in the module [Engine]. *)

From Stdlib Require Import ZArith Ascii String.
From stdpp Require Import gmap strings list fin_maps.

Local Open Scope Z_scope.

(** ** JavaScript strings

    A JavaScript string is a finite sequence of UTF-16 code units;
    [length], [substring] and [indexOf] all count code units. *)

Definition jsstring : Type := list N.

(** String literals of the development: one code unit per character. *)
Definition js (s : string) : jsstring :=
  List.map N_of_ascii (list_ascii_of_string s).

Definition jslength (s : jsstring) : Z := Z.of_nat (length s).

(** [s.substring(start, end)]: both arguments are clamped to
    [0, s.length] and swapped when out of order. *)
Definition substring (s : jsstring) (start end_ : Z) : jsstring :=
  let len := jslength s in
  let finalStart := Z.min (Z.max start 0) len in
  let finalEnd := Z.min (Z.max end_ 0) len in
  let from := Z.min finalStart finalEnd in
  let to := Z.max finalStart finalEnd in
  take (Z.to_nat (to - from)) (drop (Z.to_nat from) s).

Fixpoint isPrefix (p s : jsstring) : bool :=
  match p, s with
  | [], _ => true
  | _ :: _, [] => false
  | a :: p', b :: s' => (a =? b)%N && isPrefix p' s'
  end.

Fixpoint indexOfFrom (s search : jsstring) (i : Z) : Z :=
  if isPrefix search s then i
  else match s with
       | [] => -1
       | _ :: s' => indexOfFrom s' search (i + 1)
       end.

(** [s.indexOf(search)]: the first index at which [search] occurs, or -1. *)
Definition indexOf (s search : jsstring) : Z := indexOfFrom s search 0.

(** WhiteSpace and LineTerminator code points of ECMAScript, the ones
    [String.prototype.trim] strips (all lie in the basic plane). *)
Definition isWhiteSpace (c : N) : bool :=
  ((c =? 9) || (c =? 10) || (c =? 11) || (c =? 12) || (c =? 13) ||
   (c =? 32) || (c =? 160) || (c =? 5760) ||
   ((8192 <=? c) && (c <=? 8202)) ||
   (c =? 8232) || (c =? 8233) || (c =? 8239) || (c =? 8287) ||
   (c =? 12288) || (c =? 65279))%N.

Fixpoint trimStart (s : jsstring) : jsstring :=
  match s with
  | [] => []
  | c :: s' => if isWhiteSpace c then trimStart s' else s
  end.

Definition trimEnd (s : jsstring) : jsstring :=
  reverse (trimStart (reverse s)).

Definition trim (s : jsstring) : jsstring := trimEnd (trimStart s).

(** An occurrence of [t] in [s] at index [k]. *)
Definition occurs_at (s t : jsstring) (k : Z) : Prop :=
  0 <= k /\ k + jslength t <= jslength s /\
  substring s k (k + jslength t) = t.

(** [a === b] on strings. *)
Fixpoint streq (a b : jsstring) : bool :=
  match a, b with
  | [], [] => true
  | x :: a', y :: b' => (x =? y)%N && streq a' b'
  | _, _ => false
  end.

(** ** Event handlers

    A handler of the client runs against the component state, performs
    observable effects (console output, dialogs, requests to the service)
    and either completes or throws.  Values that come from the
    environment (the DOM, replies of the service, the answer to a dialog)
    are arguments of the handler. *)

(** [src/web/src/lib/api.ts] *)
Record EditSuggestRequest := {
  manuscript_id : string;
  instruction : jsstring;
  target_range : Z * Z;
  k : Z;
  num_options : Z;
}.

(** [interface Selection] of the three components. *)
Record Selection := { start : Z; end_ : Z; text : jsstring }.

Inductive exn := JsError (msg : string).

Inductive completion (A : Type) : Type :=
| Normal (a : A)
| Throw (err : exn).
Arguments Normal {A} a.
Arguments Throw {A} err.

Inductive effect :=
| ConsoleLog (msg : string)
| ConsoleWarn (msg : string)
| ConsoleError (msg : string)
| Alert (msg : string)
| Confirm (msg : string)
| SetIsSelecting (b : bool)
| SetSelection (v : option Selection)
| ApiGetHistory (id : string)
| ApiRevert (id toVersionId : string)
| ApiSuggest (request : EditSuggestRequest)
| ApiApply (edit_session_id option_id : string)
| RefetchContent
| InvalidateQueries.

Definition M (St A : Type) : Type := St -> list effect * St * completion A.

Definition ret {St A} (a : A) : M St A := fun s => ([], s, Normal a).

Definition bind {St A B} (m : M St A) (f : A -> M St B) : M St B :=
  fun s =>
    match m s with
    | (t1, s1, Normal a) =>
        match f a s1 with (t2, s2, c) => (t1 ++ t2, s2, c) end
    | (t1, s1, Throw e) => (t1, s1, Throw e)
    end.

Definition emit {St} (e : effect) : M St unit := fun s => ([e], s, Normal tt).

Definition get {St} : M St St := fun s => ([], s, Normal s).

Definition modify {St} (f : St -> St) : M St unit :=
  fun s => ([], f s, Normal tt).

(** [await p] for a promise whose outcome the environment supplies. *)
Definition await {St A} (reply : completion A) : M St A :=
  fun s => ([], s, reply).

(** [throw e] *)
Definition throw {St A} (e : exn) : M St A := fun s => ([], s, Throw e).

(** [try { body } catch (error) { handler }] *)
Definition tryCatch {St A} (body : M St A) (handler : exn -> M St A) : M St A :=
  fun s =>
    match body s with
    | (t1, s1, Normal a) => (t1, s1, Normal a)
    | (t1, s1, Throw e) =>
        match handler e s1 with (t2, s2, c) => (t1 ++ t2, s2, c) end
    end.

Notation "'let!' x ':=' m 'in' body" := (bind m (fun x => body))
  (at level 10, x name, m at level 100, body at level 200,
   format "'[v' 'let!'  x  ':='  m  'in' '/' body ']'").
Notation "'do!' m 'in' body" := (bind m (fun _ => body))
  (at level 10, m at level 100, body at level 200,
   format "'[v' 'do!'  m  'in' '/' body ']'").

(** The observable parts of a run. *)
Definition trace_of {St A} (r : list effect * St * completion A) : list effect :=
  r.1.1.
Definition state_of {St A} (r : list effect * St * completion A) : St := r.1.2.
Definition completion_of {St A} (r : list effect * St * completion A)
  : completion A := r.2.

(** Truthiness of an optional string ([!id] is true for [null] and [""]). *)
Definition truthy (id : option string) : bool :=
  match id with
  | Some s => negb (String.eqb s "")
  | None => false
  end.

(** ** ManuscriptViewer.tsx

    The file comes in two revisions.  [ManuscriptViewer] is the one that
    reads the offset of the selection from the rendered DOM and falls
    back to a text search; [ManuscriptViewerSimple] always searches. *)

(** What the DOM reports at mouse-up: [range.toString()], and the length
    of the text from the start of the content node to the start of the
    selection, whose computation may throw. *)
Record WindowSelection := {
  rangeCount : nat;
  range_toString : jsstring;
  textBeforeSelection_length : completion Z;
}.

Record Dom := {
  contentRef_current : bool;
  windowSelection : option WindowSelection;
}.

Module ManuscriptViewer.
Section Component.
Context {St : Type}.
Variable content : jsstring.
Variable onTextSelection : Z -> Z -> jsstring -> M St unit.

Definition handleMouseUp (dom : Dom) : M St unit :=
  if negb (contentRef_current dom) then ret tt else
  match windowSelection dom with
  | None => ret tt
  | Some windowSelection =>
    if (rangeCount windowSelection =? 0)%nat then ret tt else
    let selectedText := range_toString windowSelection in
    if jslength (trim selectedText) =? 0 then ret tt else
    do! tryCatch
          (let! startIndex := await (textBeforeSelection_length windowSelection) in
           let endIndex := startIndex + jslength selectedText in
           do! emit (ConsoleLog "Selection details:") in
           if (0 <=? startIndex) && (endIndex <=? jslength content)
              && (startIndex <? endIndex)
           then onTextSelection startIndex endIndex selectedText
           else
             do! emit (ConsoleWarn "Selection indices out of bounds, trying fallback") in
             let trimmedText := trim selectedText in
             let fallbackStart := indexOf content trimmedText in
             if negb (fallbackStart =? -1) then
               let fallbackEnd := fallbackStart + jslength trimmedText in
               onTextSelection fallbackStart fallbackEnd trimmedText
             else ret tt)
          (fun error =>
             do! emit (ConsoleError "Selection error:") in
             let trimmedText := trim selectedText in
             let startIndex := indexOf content trimmedText in
             if negb (startIndex =? -1) then
               let endIndex := startIndex + jslength trimmedText in
               onTextSelection startIndex endIndex trimmedText
             else ret tt)
    in
    emit (SetIsSelecting false)
  end.
End Component.
End ManuscriptViewer.

Module ManuscriptViewerSimple.
Section Component.
Context {St : Type}.
Variable content : jsstring.
Variable onTextSelection : Z -> Z -> jsstring -> M St unit.

Definition handleMouseUp (dom : Dom) : M St unit :=
  if negb (contentRef_current dom) then ret tt else
  match windowSelection dom with
  | None => ret tt
  | Some windowSelection =>
    if (rangeCount windowSelection =? 0)%nat then ret tt else
    let selectedText := trim (range_toString windowSelection) in
    if jslength selectedText =? 0 then ret tt else
    let contentText := content in
    let startIndex := indexOf contentText selectedText in
    do! (if negb (startIndex =? -1) then
           let endIndex := startIndex + jslength selectedText in
           onTextSelection startIndex endIndex selectedText
         else ret tt)
    in
    emit (SetIsSelecting false)
  end.
End Component.
End ManuscriptViewerSimple.

(** The test of the offset that [ManuscriptViewer.handleMouseUp] makes
    before it reports the offset pair as it is: the offset was read
    without an exception and the pair lies within the content. *)
Definition offsetInBounds (content : jsstring) (ws : WindowSelection) : bool :=
  match textBeforeSelection_length ws with
  | Normal startIndex =>
    let endIndex := startIndex + jslength (range_toString ws) in
    (0 <=? startIndex) && (endIndex <=? jslength content)
    && (startIndex <? endIndex)
  | Throw _ => false
  end.

(** A callback that only records its calls, to observe what a viewer
    reports through [onTextSelection]. *)
Definition spy (start end_ : Z) (text : jsstring)
  : M (list (Z * Z * jsstring)) unit :=
  modify (fun calls => calls ++ [(start, end_, text)]).

Definition reported (content : jsstring) (dom : Dom) : list (Z * Z * jsstring) :=
  state_of (ManuscriptViewer.handleMouseUp content spy dom []).

Definition reported_simple (content : jsstring) (dom : Dom)
  : list (Z * Z * jsstring) :=
  state_of (ManuscriptViewerSimple.handleMouseUp content spy dom []).

(** ** lib/api.ts: the records exchanged with the service *)

Inductive DiffOp := op_equal | op_insert | op_delete.

Record DiffHunk := { op : DiffOp; hunk_text : jsstring }.

Record EditOption := {
  option_id : string;
  label : string;
  before : jsstring;
  after : jsstring;
  diff : list DiffHunk;
  severity : string;
}.

Record EditSuggestResponse := {
  resp_edit_session_id : string;
  options : list EditOption;
}.

Record ManuscriptContent := { content : jsstring }.

(** An entry of the history reply ([interface Version] of
    VersionHistory.tsx). *)
Record VersionInfo := {
  id : string;
  version_tag : string;
  created_at : string;
  is_current : bool;
}.

Record HistoryResponse := { versions : option (list VersionInfo) }.

(** ** DiffViewer.tsx *)

Module DiffViewer.

Record SimpleDiff := { removed : jsstring; added : jsstring }.

Definition computeSimpleDiff (oldText newText : jsstring) : SimpleDiff :=
  {| removed := if negb (streq oldText newText) then oldText else [];
     added := if negb (streq oldText newText) then newText else oldText |}.

Definition hasChanges (before after : jsstring) : bool :=
  negb (streq before after).

(** What the expanded card shows, read as a hunk sequence.  Under
    [hasChanges] the component renders [diff.removed] in the "Before"
    column and [diff.added] in the "After" column: one delete hunk and
    one insert hunk.  Otherwise it renders "No changes detected" and
    neither part of the pair: the text stands as it is, one equal
    hunk. *)
Definition asHunks (before after : jsstring) : list DiffHunk :=
  let diff := computeSimpleDiff before after in
  if hasChanges before after
  then [ {| op := op_delete; hunk_text := removed diff |};
         {| op := op_insert; hunk_text := added diff |} ]
  else [ {| op := op_equal; hunk_text := after |} ].

End DiffViewer.

(** ** Hunk sequences, word tokens and alignments

    The notions the diff is measured against: what a hunk sequence
    reconstructs, the word tokens of a text, and the length of a longest
    common subsequence of two token sequences. *)

Module DiffSpec.
Local Open Scope nat_scope.




(** Word tokens: maximal runs of whitespace and of non-whitespace. *)
Fixpoint tokenize (s : jsstring) : list jsstring :=
  match s with
  | [] => []
  | c :: s' =>
    match tokenize s' with
    | (d :: t) :: ts =>
      if Bool.eqb (isWhiteSpace c) (isWhiteSpace d)
      then (c :: d :: t) :: ts
      else [c] :: (d :: t) :: ts
    | ts => [c] :: ts
    end
  end.

(** Length of a longest common subsequence. *)
Fixpoint lcs (a b : list jsstring) : nat :=
  match a with
  | [] => 0
  | x :: a' =>
    (fix against (b : list jsstring) : nat :=
       match b with
       | [] => 0
       | y :: b' =>
         if streq x y then S (lcs a' b')
         else Nat.max (lcs a' b) (against b')
       end) b
  end.

(** Number of changed tokens of a minimal edit script. *)
Definition minimalEdits (before after : jsstring) : nat :=
  let tb := tokenize before in
  let ta := tokenize after in
  (length tb + length ta - 2 * lcs tb ta)%nat.

(** Number of tokens a hunk sequence inserts or deletes. *)
Fixpoint changedTokens (hs : list DiffHunk) : nat :=
  match hs with
  | [] => 0
  | h :: hs' =>
    match op h with
    | op_equal => changedTokens hs'
    | op_insert | op_delete =>
      (length (tokenize (hunk_text h)) + changedTokens hs')%nat
    end
  end.

End DiffSpec.

(** ** EditConsole (second component of part_004) *)

Module EditConsole.
Section Component.
Context {St : Type}.
Variable selection : option Selection.
Variable onSuggestEdits : jsstring -> M St unit.
Variable onApplyEdit : string -> M St unit.

Definition handleSuggest (instruction : jsstring) : M St unit :=
  if streq (trim instruction) [] then ret tt else
  match selection with
  | None => ret tt
  | Some _ => onSuggestEdits (trim instruction)
  end.

Definition handleApply (optionId : string) (confirmed : bool) : M St unit :=
  do! emit (Confirm "Apply this edit to the manuscript?") in
  if confirmed then onApplyEdit optionId else ret tt.
End Component.
End EditConsole.

(** ** VersionHistory.tsx *)

Module VersionHistory.
Section Component.
Context {St : Type}.
Variable onRevert : string -> M St unit.

Definition handleRevert (version : VersionInfo) (confirmed : bool) : M St unit :=
  if is_current version then
    emit (Alert "This is already the current version.")
  else
    do! emit (Confirm "Revert to version") in
    if confirmed then onRevert (id version) else ret tt.
End Component.
End VersionHistory.

(** ** BookEditor (third component of ManuscriptViewer.tsx) *)

Module BookEditor.

Record State := {
  manuscriptId : option string;
  selection : option Selection;
  editSessionId : option string;
  editOptions : list EditOption;
  isLoading : bool;
  showHistory : bool;
  manuscriptContent : option ManuscriptContent;
}.

(** [setSelection]; the trace records what is stored. *)
Definition setSelection (v : option Selection) : M State unit :=
  do! emit (SetSelection v) in
  modify (fun st =>
    {| manuscriptId := manuscriptId st; selection := v;
       editSessionId := editSessionId st; editOptions := editOptions st;
       isLoading := isLoading st; showHistory := showHistory st;
       manuscriptContent := manuscriptContent st |}).

Definition setEditSessionId (v : option string) : M State unit :=
  modify (fun st =>
    {| manuscriptId := manuscriptId st; selection := selection st;
       editSessionId := v; editOptions := editOptions st;
       isLoading := isLoading st; showHistory := showHistory st;
       manuscriptContent := manuscriptContent st |}).

Definition setEditOptions (v : list EditOption) : M State unit :=
  modify (fun st =>
    {| manuscriptId := manuscriptId st; selection := selection st;
       editSessionId := editSessionId st; editOptions := v;
       isLoading := isLoading st; showHistory := showHistory st;
       manuscriptContent := manuscriptContent st |}).

Definition setIsLoading (v : bool) : M State unit :=
  modify (fun st =>
    {| manuscriptId := manuscriptId st; selection := selection st;
       editSessionId := editSessionId st; editOptions := editOptions st;
       isLoading := v; showHistory := showHistory st;
       manuscriptContent := manuscriptContent st |}).

Definition setShowHistory (v : bool) : M State unit :=
  modify (fun st =>
    {| manuscriptId := manuscriptId st; selection := selection st;
       editSessionId := editSessionId st; editOptions := editOptions st;
       isLoading := isLoading st; showHistory := v;
       manuscriptContent := manuscriptContent st |}).

(** The content query delivers new data. *)
Definition setManuscriptContent (v : option ManuscriptContent) : M State unit :=
  modify (fun st =>
    {| manuscriptId := manuscriptId st; selection := selection st;
       editSessionId := editSessionId st; editOptions := editOptions st;
       isLoading := isLoading st; showHistory := showHistory st;
       manuscriptContent := v |}).

(** [suggestEditsMutation]: [onSuccess] and [onError]. *)
Definition suggestEditsMutation_onSuccess (data : EditSuggestResponse)
  : M State unit :=
  do! setEditSessionId (Some (resp_edit_session_id data)) in
  do! setEditOptions (options data) in
  setIsLoading false.

Definition suggestEditsMutation_onError : M State unit :=
  do! emit (ConsoleError "Failed to get edit suggestions:") in
  setIsLoading false.

(** [applyEditMutation]: [onSuccess] and [onError]. *)
Definition applyEditMutation_onSuccess : M State unit :=
  do! emit RefetchContent in
  do! setEditSessionId None in
  do! setEditOptions [] in
  do! setSelection None in
  emit InvalidateQueries.

Definition applyEditMutation_onError : M State unit :=
  emit (ConsoleError "Failed to apply edit:").

Definition handleTextSelection (start end_ : Z) (text : jsstring)
  : M State unit :=
  let! st := get in
  match manuscriptContent st with
  | Some manuscriptContent =>
    if (0 <=? start) && (start <? end_) && (0 <? jslength text)
       && negb (streq (content manuscriptContent) [])
    then
      let actualText := substring (content manuscriptContent) start end_ in
      if streq actualText text then
        do! setSelection (Some {| start := start; end_ := end_; text := text |}) in
        do! setEditSessionId None in
        setEditOptions []
      else
        emit (ConsoleWarn "Text selection mismatch, ignoring selection")
    else ret tt
  | None => ret tt
  end.

Definition handleSuggestEdits (instruction : jsstring) : M State unit :=
  let! st := get in
  match selection st, manuscriptId st with
  | Some selection, Some manuscriptId =>
    if negb (truthy (Some manuscriptId)) then ret tt else
    do! setIsLoading true in
    emit (ApiSuggest {| manuscript_id := manuscriptId;
                        instruction := instruction;
                        target_range := (start selection, end_ selection);
                        k := 6; num_options := 3 |})
  | _, _ => ret tt
  end.

Definition handleApplyEdit (optionId : string) : M State unit :=
  let! st := get in
  match editSessionId st with
  | Some editSessionId =>
    if negb (truthy (Some editSessionId)) then ret tt else
    emit (ApiApply editSessionId optionId)
  | None => ret tt
  end.

(** [await refetchContent()], the [refetch] of the content query.  Its
    promise resolves whether the request succeeds or fails: [reply] is
    the outcome of the request [manuscriptApi.getContent], and after a
    failed request the query keeps the data it had. *)
Definition refetchContent (reply : completion (option ManuscriptContent))
  : M State unit :=
  do! emit RefetchContent in
  match reply with
  | Normal fresh => setManuscriptContent fresh
  | Throw _ => ret tt
  end.

(** What the environment answers during one run of [handleUndo]. *)
Record UndoEnv := {
  getHistory_reply : completion HistoryResponse;
  confirm_reply : bool;
  revert_reply : completion unit;
  refetchContent_reply : completion (option ManuscriptContent);
}.

Definition handleUndo (env : UndoEnv) : M State unit :=
  let! st := get in
  match manuscriptId st with
  | None => ret tt
  | Some manuscriptId =>
    if negb (truthy (Some manuscriptId)) then ret tt else
    tryCatch
      (do! emit (ApiGetHistory manuscriptId) in
       let! history := await (getHistory_reply env) in
       match versions history with
       | None => emit (Alert "No previous version to undo to.")
       | Some versions =>
         if (length versions <? 2)%nat then
           emit (Alert "No previous version to undo to.")
         else
           match versions !! 1%nat, versions !! 0%nat with
           | Some previousVersion, Some currentVersion =>
             do! emit (Confirm "Undo to previous version?") in
             if negb (confirm_reply env) then ret tt else
             do! emit (ApiRevert manuscriptId (id previousVersion)) in
             do! await (revert_reply env) in
             do! refetchContent (refetchContent_reply env) in
             emit (Alert "Successfully undone last change!")
           | _, _ => throw (JsError "TypeError")
           end
       end)
      (fun error =>
         do! emit (ConsoleError "Undo failed:") in
         emit (Alert "Failed to undo. Check console for details."))
  end.

Record RevertEnv := {
  rv_revert_reply : completion unit;
  rv_refetchContent_reply : completion (option ManuscriptContent);
}.

Definition handleRevertToVersion (env : RevertEnv) (versionId : string)
  : M State unit :=
  let! st := get in
  match manuscriptId st with
  | None => ret tt
  | Some manuscriptId =>
    if negb (truthy (Some manuscriptId)) then ret tt else
    tryCatch
      (do! emit (ApiRevert manuscriptId versionId) in
       do! await (rv_revert_reply env) in
       do! refetchContent (rv_refetchContent_reply env) in
       do! setShowHistory false in
       emit (Alert "Successfully restored to selected version!"))
      (fun error =>
         do! emit (ConsoleError "Revert failed:") in
         emit (Alert "Failed to restore version. Check console for details."))
  end.

(** The viewer is rendered once the manuscript id and the content are
    there: [<ManuscriptViewer content={manuscriptContent.content}
    onTextSelection={handleTextSelection} .../>]. *)
Definition viewer_mouseUp (dom : Dom) : M State unit :=
  let! st := get in
  match manuscriptContent st with
  | Some manuscriptContent =>
    if negb (truthy (manuscriptId st)) then ret tt else
    ManuscriptViewer.handleMouseUp (content manuscriptContent)
      handleTextSelection dom
  | None => ret tt
  end.

(** The same wiring with the search-only revision of the viewer. *)
Definition viewer_mouseUp_simple (dom : Dom) : M State unit :=
  let! st := get in
  match manuscriptContent st with
  | Some manuscriptContent =>
    if negb (truthy (manuscriptId st)) then ret tt else
    ManuscriptViewerSimple.handleMouseUp (content manuscriptContent)
      handleTextSelection dom
  | None => ret tt
  end.

(** EditConsole renders one apply button per option, and only while
    there is a selection. *)
Definition applyButtons (st : State) : list string :=
  match selection st with
  | None => []
  | Some _ => option_id <$> editOptions st
  end.

(** What can happen to the component: user actions on what is
    rendered, and the outcomes of the requests it has sent.  The
    suggestion button is disabled while the instruction is blank or a
    request is pending; an apply button exists for each rendered
    option; the restore buttons belong to the history dialog. *)
Inductive event :=
| MouseUp (dom : Dom)
| SuggestClicked (instruction : jsstring)
| SuggestSucceeded (data : EditSuggestResponse)
| SuggestFailed
| ApplyClicked (optionId : string) (confirmed : bool)
| ApplySucceeded
| ApplyFailed
| UndoClicked (env : UndoEnv)
| RestoreClicked (version : VersionInfo) (confirmed : bool) (env : RevertEnv)
| HistoryOpened
| HistoryClosed
| ContentLoaded (data : option ManuscriptContent).

Definition dispatch (ev : event) : M State unit :=
  match ev with
  | MouseUp dom => viewer_mouseUp dom
  | SuggestClicked instruction =>
    let! st := get in
    if streq (trim instruction) [] || isLoading st then ret tt
    else EditConsole.handleSuggest (selection st) handleSuggestEdits instruction
  | SuggestSucceeded data => suggestEditsMutation_onSuccess data
  | SuggestFailed => suggestEditsMutation_onError
  | ApplyClicked optionId confirmed =>
    let! st := get in
    if bool_decide (optionId ∈ applyButtons st)
    then EditConsole.handleApply handleApplyEdit optionId confirmed
    else ret tt
  | ApplySucceeded => applyEditMutation_onSuccess
  | ApplyFailed => applyEditMutation_onError
  | UndoClicked env => handleUndo env
  | RestoreClicked version confirmed env =>
    let! st := get in
    if showHistory st
    then VersionHistory.handleRevert (handleRevertToVersion env) version confirmed
    else ret tt
  | HistoryOpened => setShowHistory true
  | HistoryClosed => setShowHistory false
  | ContentLoaded data => setManuscriptContent data
  end.

(** An error that escapes a handler is reported by the browser and the
    next event is handled as usual. *)
Fixpoint runEvents (evs : list event) : M State unit :=
  match evs with
  | [] => ret tt
  | ev :: evs' =>
    do! tryCatch (dispatch ev) (fun _ => ret tt) in
    runEvents evs'
  end.

(** The requests and stores a trace contains. *)
Definition reverts (t : list effect) : list (string * string) :=
  omap (fun e => match e with
                 | ApiRevert id v => Some (id, v)
                 | _ => None
                 end) t.

Definition applies (t : list effect) : list (string * string) :=
  omap (fun e => match e with
                 | ApiApply sid oid => Some (sid, oid)
                 | _ => None
                 end) t.

Definition alerts (t : list effect) : list string :=
  omap (fun e => match e with
                 | Alert msg => Some msg
                 | _ => None
                 end) t.

Definition stored (t : list effect) : list (option Selection) :=
  omap (fun e => match e with
                 | SetSelection v => Some v
                 | _ => None
                 end) t.

(** The conditions of section 4.2 on an offset pair. *)
Definition validSelection (content : jsstring) (sel : Selection) : Prop :=
  0 <= start sel /\ start sel < end_ sel /\ end_ sel <= jslength content /\
  substring content (start sel) (end_ sel) = text sel.

(** The state after a selection has been stored: the previous session
    and its options are gone. *)
Definition accepted (st : State) (sel : Selection) : State :=
  {| manuscriptId := manuscriptId st; selection := Some sel;
     editSessionId := None; editOptions := [];
     isLoading := isLoading st; showHistory := showHistory st;
     manuscriptContent := manuscriptContent st |}.

(** A trace without stores, alerts or requests for apply and revert. *)
Definition silent (t : list effect) : Prop :=
  stored t = [] /\ alerts t = [] /\ applies t = [] /\ reverts t = [].

(** A trace that only writes to the console (and lowers the viewer's
    own selecting flag): no dialog, no store, no request. *)
Definition consoleOnly (t : list effect) : Prop :=
  Forall (fun e => match e with
                   | ConsoleLog _ | ConsoleWarn _ | ConsoleError _
                   | SetIsSelecting false => True
                   | _ => False
                   end) t.

(** What one mouse-up in the viewer can do to the editor: nothing, or
    store one valid selection. *)
Inductive outcome (st : State) : list effect * State * completion unit -> Prop :=
| outcome_ignored (t : list effect) :
    silent t -> outcome st (t, st, Normal tt)
| outcome_stored (t : list effect) (mc : ManuscriptContent) (sel : Selection) :
    manuscriptContent st = Some mc ->
    validSelection (content mc) sel ->
    stored t = [Some sel] -> alerts t = [] -> applies t = [] ->
    reverts t = [] ->
    outcome st (t, accepted st sel, Normal tt).

End BookEditor.

(** ** Sample inputs *)

(** A heading and a paragraph; the viewer renders the heading without
    its "# " mark, so offsets in the rendered text run two behind. *)
Definition headedContent : jsstring := js "# Title" ++ [10%N] ++ js "Hello".

(** A mouse-up with one selected range in the attached content node. *)
Definition mouseUpAt (raw : jsstring) (offset : completion Z) : Dom :=
  {| contentRef_current := true;
     windowSelection :=
       Some {| rangeCount := 1; range_toString := raw;
               textBeforeSelection_length := offset |} |}.

Definition sampleOption : EditOption :=
  {| option_id := "o1"; label := "A"; before := js "cat";
     after := js "feline"; diff := []; severity := "light" |}.

(** An editor that shows the given content and has a session open. *)
Definition editorShowing (c : jsstring) : BookEditor.State :=
  {| BookEditor.manuscriptId := Some "m1"%string;
     BookEditor.selection := None;
     BookEditor.editSessionId := Some "s1"%string;
     BookEditor.editOptions := [sampleOption];
     BookEditor.isLoading := false;
     BookEditor.showHistory := false;
     BookEditor.manuscriptContent := Some {| content := c |} |}.

Definition sampleHistory : HistoryResponse :=
  {| versions :=
       Some [ {| id := "v2"; version_tag := "2025-10-05 13:39:07";
                 created_at := "2025-10-05T13:39:07"; is_current := true |};
              {| id := "v1"; version_tag := "2025-10-05 13:20:00";
                 created_at := "2025-10-05T13:20:00"; is_current := false |} ] |}.

Definition undoEnv (history : HistoryResponse) (confirmed : bool)
  : BookEditor.UndoEnv :=
  {| BookEditor.getHistory_reply := Normal history;
     BookEditor.confirm_reply := confirmed;
     BookEditor.revert_reply := Normal tt;
     BookEditor.refetchContent_reply := Normal (Some {| content := js "A cat sat." |}) |}.

(** ** The version store and the edit-session engine

    The service that answers [/manuscripts/{id}/history],
    [/manuscripts/{id}/revert] and [/edits/apply] is not among the
    sources.  The definitions of this module follow the specification
    (Content Store, Version Manager and Edit Session Manager). *)

Module Engine.

Inductive error :=
| NotFound | StaleBase | Conflict | InvalidRange | SuggestionUnavailable.

Inductive result (A : Type) : Type :=
| Ok (a : A)
| Err (e : error).
Arguments Ok {A} a.
Arguments Err {A} e.

(** Modelled from the spec: the Version record of the data model
    (the storage layer is missing).  Versions are entries of an
    append-only arena and a version id is the index of its entry. *)
Record Version := {
  v_id : nat;
  v_manuscriptId : nat;
  v_content : jsstring;
  v_versionTag : nat;
  v_createdAt : nat;
  v_parentVersionId : option nat;
}.

(** Modelled from the spec: the Manuscript record of the data model. *)
Record Manuscript := {
  m_id : nat;
  m_title : string;
  m_author : option string;
  m_createdAt : nat;
  m_currentVersionId : nat;
}.

(** Modelled from the spec: the Content Store, whose implementation is
    missing: the manuscripts, the arena of version snapshots in order
    of creation, and the clock that stamps them. *)
Record Store := {
  manuscripts : gmap nat Manuscript;
  arena : list Version;
  clock : nat;
  nextManuscriptId : nat;
}.

Definition emptyStore : Store :=
  {| manuscripts := ∅; arena := []; clock := 0; nextManuscriptId := 0 |}.

(** Modelled from the spec: [appendVersion(manuscriptId, content,
    parentVersionId?)] of the missing Content Store creates the Version
    and moves the current pointer in one step. *)
Definition appendVersion (s : Store) (mid : nat) (c : jsstring)
    (parent : option nat) : result (Store * Version) :=
  match manuscripts s !! mid with
  | None => Err NotFound
  | Some m =>
    let v := {| v_id := length (arena s); v_manuscriptId := mid;
                v_content := c; v_versionTag := clock s;
                v_createdAt := clock s; v_parentVersionId := parent |} in
    let m' := {| m_id := m_id m; m_title := m_title m;
                 m_author := m_author m; m_createdAt := m_createdAt m;
                 m_currentVersionId := v_id v |} in
    Ok ({| manuscripts := <[mid := m']> (manuscripts s);
           arena := arena s ++ [v];
           clock := S (clock s);
           nextManuscriptId := nextManuscriptId s |}, v)
  end.

(** Modelled from the spec: [createManuscript(title, author?, content)]
    of the missing Content Store creates the manuscript with its first
    version and makes that version current. *)
Definition createManuscript (s : Store) (title : string)
    (author : option string) (c : jsstring) : Store * Manuscript :=
  let mid := nextManuscriptId s in
  let v := {| v_id := length (arena s); v_manuscriptId := mid;
              v_content := c; v_versionTag := clock s;
              v_createdAt := clock s; v_parentVersionId := None |} in
  let m := {| m_id := mid; m_title := title; m_author := author;
              m_createdAt := clock s; m_currentVersionId := v_id v |} in
  ({| manuscripts := <[mid := m]> (manuscripts s);
      arena := arena s ++ [v];
      clock := S (clock s);
      nextManuscriptId := S mid |}, m).

(** Modelled from the spec: [getManuscript(id)] of the missing Content
    Store. *)
Definition getManuscript (s : Store) (mid : nat) : result Manuscript :=
  match manuscripts s !! mid with
  | Some m => Ok m
  | None => Err NotFound
  end.

(** Modelled from the spec: [getCurrent(manuscriptId)] of the missing
    Version Manager. *)
Definition getCurrent (s : Store) (mid : nat) : result Version :=
  match manuscripts s !! mid with
  | None => Err NotFound
  | Some m =>
    match arena s !! m_currentVersionId m with
    | Some v => Ok v
    | None => Err NotFound
    end
  end.

(** Modelled from the spec: [getContent(id)] of the missing Content
    Store, the content of the current version. *)
Definition getContent (s : Store) (mid : nat) : result jsstring :=
  match getCurrent s mid with
  | Ok v => Ok (v_content v)
  | Err e => Err e
  end.

(** Modelled from the spec: [listVersions(manuscriptId)] of the missing
    Content Store, newest first. *)
Definition listVersions (s : Store) (mid : nat) : list Version :=
  reverse (filter (fun v => v_manuscriptId v = mid) (arena s)).

Record HistoryEntry := {
  h_id : nat;
  h_versionTag : nat;
  h_createdAt : nat;
  h_isCurrent : bool;
}.

(** Modelled from the spec: [listHistory(manuscriptId)] of the missing
    Version Manager, newest first, each entry flagged when current. *)
Definition listHistory (s : Store) (mid : nat) : result (list HistoryEntry) :=
  match manuscripts s !! mid with
  | None => Err NotFound
  | Some m =>
    Ok ((fun v => {| h_id := v_id v; h_versionTag := v_versionTag v;
                     h_createdAt := v_createdAt v;
                     h_isCurrent := bool_decide (v_id v = m_currentVersionId m) |})
          <$> listVersions s mid)
  end.

(** Modelled from the spec: [commit(manuscriptId, expectedBaseVersionId,
    newContent)] of the missing Version Manager, the optimistic write. *)
Definition commit (s : Store) (mid expectedBase : nat) (newContent : jsstring)
    : result (Store * Version) :=
  match manuscripts s !! mid with
  | None => Err NotFound
  | Some m =>
    if bool_decide (expectedBase = m_currentVersionId m)
    then appendVersion s mid newContent (Some expectedBase)
    else Err StaleBase
  end.

(** Modelled from the spec: [revert(manuscriptId, targetVersionId)] of
    the missing Version Manager: an ordinary commit of a copy of the
    target's content on top of the current version. *)
Definition revert (s : Store) (mid target : nat) : result (Store * Version) :=
  match manuscripts s !! mid with
  | None => Err NotFound
  | Some m =>
    match arena s !! target with
    | None => Err NotFound
    | Some tv =>
      if bool_decide (v_manuscriptId tv = mid)
      then commit s mid (m_currentVersionId m) (v_content tv)
      else Err NotFound
    end
  end.

(** The invariant of the data model: a version's id is its index in
    the arena, it was stamped before the present tick and belongs to a
    known manuscript; a manuscript's current pointer designates one of
    its own versions. *)
Definition wf (s : Store) : Prop :=
  (forall i v, arena s !! i = Some v ->
     v_id v = i /\ (v_createdAt v < clock s)%nat /\
     is_Some (manuscripts s !! v_manuscriptId v)) /\
  (forall mid m, manuscripts s !! mid = Some m ->
     m_id m = mid /\ (mid < nextManuscriptId s)%nat /\
     exists v, arena s !! m_currentVersionId m = Some v /\
               v_manuscriptId v = mid).

(** The history entry without its current flag. *)
Definition entryKey (h : HistoryEntry) : nat * nat * nat :=
  (h_id h, h_versionTag h, h_createdAt h).

Inductive SessionStatus :=
| CREATED | SUGGESTING | OPTIONS_READY | APPLIED | DISCARDED.

Definition terminal (st : SessionStatus) : bool :=
  match st with
  | APPLIED | DISCARDED => true
  | _ => false
  end.

Inductive Severity := light | medium | bold.

(** Modelled from the spec: the EditOption record of the data model. *)
Record Option_ := {
  o_optionId : nat;
  o_label : string;
  o_before : jsstring;
  o_after : jsstring;
  o_diff : list DiffHunk;
  o_severity : Severity;
}.

(** Modelled from the spec: the EditSession record of the data model. *)
Record EditSession := {
  s_id : nat;
  s_manuscriptId : nat;
  s_baseVersionId : nat;
  s_targetRange : nat * nat;
  s_selectedText : jsstring;
  s_instruction : jsstring;
  s_options : list Option_;
  s_status : SessionStatus;
}.

Definition withStatus (sess : EditSession) (st : SessionStatus) : EditSession :=
  {| s_id := s_id sess; s_manuscriptId := s_manuscriptId sess;
     s_baseVersionId := s_baseVersionId sess;
     s_targetRange := s_targetRange sess;
     s_selectedText := s_selectedText sess;
     s_instruction := s_instruction sess;
     s_options := s_options sess; s_status := st |}.

(** Modelled from the spec: the state of the missing Edit Session
    Manager, the store and the sessions by id. *)
Record State := {
  store : Store;
  sessions : gmap nat EditSession;
}.

(** Modelled from the spec: [content[start:end]] as the missing Edit
    Session Manager takes it. *)
Definition slice (c : jsstring) (start end_ : nat) : jsstring :=
  take (end_ - start) (drop start c).

(** Modelled from the spec: lookup of the chosen option by its id in
    the missing Edit Session Manager. *)
Definition findOption (opts : list Option_) (optionId : nat) : option Option_ :=
  List.find (fun o => Nat.eqb (o_optionId o) optionId) opts.

(** Modelled from the spec: the transition of a session to a terminal
    status in the missing Edit Session Manager. *)
Definition closeSession (st : State) (sessionId : nat) (sess : EditSession)
    (status : SessionStatus) (s : Store) : State :=
  {| store := s;
     sessions := <[sessionId := withStatus sess status]> (sessions st) |}.

(** Modelled from the spec: [applyEdit(sessionId, optionId)] of the
    missing Edit Session Manager.  The current content is fetched
    again and compared with the option's [before] on the recorded
    range; a mismatch is a [Conflict] and discards the session; a match
    commits the spliced content against the session's base version.  A
    session that is not in [OPTIONS_READY] has no applicable option. *)
Definition applyEdit (st : State) (sessionId optionId : nat)
    : State * result nat :=
  match sessions st !! sessionId with
  | None => (st, Err NotFound)
  | Some sess =>
    match s_status sess with
    | OPTIONS_READY =>
      match findOption (s_options sess) optionId with
      | None => (st, Err NotFound)
      | Some o =>
        match getContent (store st) (s_manuscriptId sess) with
        | Err e => (st, Err e)
        | Ok c =>
          let '(start, end_) := s_targetRange sess in
          if streq (slice c start end_) (o_before o) then
            let newContent := take start c ++ o_after o ++ drop end_ c in
            match commit (store st) (s_manuscriptId sess)
                    (s_baseVersionId sess) newContent with
            | Ok (s', v) => (closeSession st sessionId sess APPLIED s', Ok (v_id v))
            | Err StaleBase =>
                (closeSession st sessionId sess DISCARDED (store st), Err Conflict)
            | Err e => (st, Err e)
            end
          else (closeSession st sessionId sess DISCARDED (store st), Err Conflict)
        end
      end
    | _ => (st, Err NotFound)
    end
  end.

(** The store of the end-to-end scenario: one manuscript "A cat sat.". *)
Definition catStore : Store :=
  (createManuscript emptyStore "Cats" None (js "A cat sat.")).1.

(** The same store after a commit of "A feline sat.". *)
Definition felineStore : Store :=
  match commit catStore 0 0 (js "A feline sat.") with
  | Ok (s, _) => s
  | Err _ => catStore
  end.

(** A session on [catStore] for the range of "cat" with one option. *)
Definition catSession : EditSession :=
  {| s_id := 0; s_manuscriptId := 0; s_baseVersionId := 0;
     s_targetRange := (2, 5)%nat; s_selectedText := js "cat";
     s_instruction := js "make more vivid";
     s_options := [ {| o_optionId := 0; o_label := "A";
                       o_before := js "cat"; o_after := js "feline";
                       o_diff := []; o_severity := light |} ];
     s_status := OPTIONS_READY |}.

Definition catState : State :=
  {| store := catStore; sessions := {[ 0%nat := catSession ]} |}.

(** The session has outlived its base: the content was changed since. *)
Definition staleState : State :=
  {| store := felineStore; sessions := {[ 0%nat := catSession ]} |}.

End Engine.

From stdpp Require pretty.

(** ** ManuscriptViewer.tsx: rendering of the content *)

(** [text.split('\n')] *)
Fixpoint splitLines (s : jsstring) : list jsstring :=
  match s with
  | [] => [[]]
  | c :: s' =>
    if (c =? 10)%N then [] :: splitLines s'
    else match splitLines s' with
         | line :: lines => (c :: line) :: lines
         | [] => [[c]]
         end
  end.

(** [lines.join('\n')] *)
Fixpoint joinLines (lines : list jsstring) : jsstring :=
  match lines with
  | [] => []
  | [line] => line
  | line :: rest => line ++ 10%N :: joinLines rest
  end.

(** [s.startsWith(prefix)] *)
Definition startsWith (s prefix : jsstring) : bool := isPrefix prefix s.

(** [s.substring(start)]: the end defaults to the length. *)
Definition substringFrom (s : jsstring) (start : Z) : jsstring :=
  substring s start (jslength s).

(** The elements [formatContent] produces, with the text they hold. *)
Inductive Element :=
| Heading1 (t : jsstring)
| Heading2 (t : jsstring)
| Heading3 (t : jsstring)
| LineBreak
| Paragraph (t : jsstring).

Definition formatLine (line : jsstring) : Element :=
  if startsWith line (js "# ") then Heading1 (substringFrom line 2)
  else if startsWith line (js "## ") then Heading2 (substringFrom line 3)
  else if startsWith line (js "### ") then Heading3 (substringFrom line 4)
  else if streq (trim line) [] then LineBreak
  else Paragraph line.

Definition formatContent (text : jsstring) : list Element :=
  formatLine <$> splitLines text.

Definition elementText (e : Element) : jsstring :=
  match e with
  | Heading1 t | Heading2 t | Heading3 t | Paragraph t => t
  | LineBreak => []
  end.

(** The text of the rendered content node: the texts of its elements,
    one after the other. *)
Definition renderedText (els : list Element) : jsstring :=
  concat (elementText <$> els).

(** What each element says about its line. *)
Definition renders (line : jsstring) (el : Element) : Prop :=
  match el with
  | Heading1 t => line = js "# " ++ t
  | Heading2 t => line = js "## " ++ t
  | Heading3 t => line = js "### " ++ t
  | LineBreak => trim line = []
  | Paragraph t => t = line /\ trim line <> []
  end.

(** ** DiffViewer.tsx and EditConsole: previews *)

(** [after.length > previewLength ? after.substring(0, previewLength) +
    '...' : after] with [previewLength = 100]. *)
Definition diffPreview (after : jsstring) : jsstring :=
  let previewLength := 100 in
  if previewLength <? jslength after
  then substring after 0 previewLength ++ js "..."
  else after.

(** [selection.text.length > 200 ? selection.text.substring(0, 200) +
    '...' : selection.text] *)
Definition selectedTextPreview (selection : Selection) : jsstring :=
  if 200 <? jslength (text selection)
  then substring (text selection) 0 200 ++ js "..."
  else text selection.

(** ** VersionHistory.tsx: formatDate *)

(** [formatDate]: [diffMs] is [now.getTime() - date.getTime()], absent
    when the date string does not parse (the difference is then NaN and
    every comparison fails); [absolute] stands for
    [date.toLocaleDateString() + ' ' + date.toLocaleTimeString()]. *)
Definition formatDate (diffMs : option Z) (absolute : string) : string :=
  match diffMs with
  | None => absolute
  | Some diffMs =>
    let diffMins := diffMs / 60000 in
    let diffHours := diffMs / 3600000 in
    let diffDays := diffMs / 86400000 in
    if diffMins <? 1 then "Just now"
    else if diffMins <? 60 then
      pretty.pretty diffMins +:+ " minute" +:+ (if 1 <? diffMins then "s" else "") +:+ " ago"
    else if diffHours <? 24 then
      pretty.pretty diffHours +:+ " hour" +:+ (if 1 <? diffHours then "s" else "") +:+ " ago"
    else if diffDays <? 7 then
      pretty.pretty diffDays +:+ " day" +:+ (if 1 <? diffDays then "s" else "") +:+ " ago"
    else absolute
  end.

(** ** BookEditor: what a trace asks of the suggestion service *)

Definition suggests (t : list effect) : list EditSuggestRequest :=
  omap (fun e => match e with
                 | ApiSuggest request => Some request
                 | _ => None
                 end) t.

(** An event that brings the reply to a suggestion request. *)
Definition isSuggestReply (ev : BookEditor.event) : bool :=
  match ev with
  | BookEditor.SuggestSucceeded _ | BookEditor.SuggestFailed => true
  | _ => false
  end.

(** An editor with a selection stored and no request pending. *)
Definition editorSelected : BookEditor.State :=
  BookEditor.accepted (editorShowing (js "A cat sat."))
    {| start := 2; end_ := 5; text := js "cat" |}.

(** An editor that shows the options of a session for its selection. *)
Definition editorWithOptions : BookEditor.State :=
  {| BookEditor.manuscriptId := Some "m1"%string;
     BookEditor.selection := Some {| start := 2; end_ := 5; text := js "cat" |};
     BookEditor.editSessionId := Some "s1"%string;
     BookEditor.editOptions := [sampleOption];
     BookEditor.isLoading := false;
     BookEditor.showHistory := true;
     BookEditor.manuscriptContent := Some {| content := js "A cat sat." |} |}.

(** An editor that shows the given content, with nothing selected and
    no session. *)
Definition editorIdle (c : jsstring) : BookEditor.State :=
  {| BookEditor.manuscriptId := Some "m1"%string;
     BookEditor.selection := None;
     BookEditor.editSessionId := None;
     BookEditor.editOptions := [];
     BookEditor.isLoading := false;
     BookEditor.showHistory := false;
     BookEditor.manuscriptContent := Some {| content := c |} |}.

(** The user selects "sat." in "A feline sat.", undoes the last change
    (the content becomes "A cat sat." again) and asks for suggestions. *)
Definition staleSelectionRun : list BookEditor.event :=
  [ BookEditor.MouseUp (mouseUpAt (js "sat.") (Normal 9));
    BookEditor.UndoClicked (undoEnv sampleHistory true);
    BookEditor.SuggestClicked (js "shorten") ].

(** The user selects "cat" and asks for suggestions, selects "sat"
    while the request is pending, then the reply arrives and the user
    applies its option. *)
Definition staleReplyRun : list BookEditor.event :=
  [ BookEditor.MouseUp (mouseUpAt (js "cat") (Normal 2));
    BookEditor.SuggestClicked (js "more formal");
    BookEditor.MouseUp (mouseUpAt (js "sat") (Normal 6));
    BookEditor.SuggestSucceeded
      {| resp_edit_session_id := "s1"; options := [sampleOption] |};
    BookEditor.ApplyClicked "o1" true ].

(** The options exist only together with a session. *)
Definition optionsHaveSession (st : BookEditor.State) : Prop :=
  BookEditor.editSessionId st = None -> BookEditor.editOptions st = [].

(** ** BookEditor: loading the manuscript id *)

(** What the load effect does with the component and the local
    storage; [StoreManuscriptId] is a [localStorage.setItem] that
    succeeded. *)
Inductive LoadAction :=
| SetManuscriptId (id : jsstring)
| StoreManuscriptId (id : jsstring)
| CreateDemoManuscript.

(** What the environment answers during the load effect: the text of
    [/current_manuscript_id.txt] or the failure of the request, and
    the outcomes of [localStorage.setItem] and [localStorage.getItem],
    either of which can throw (storage full or denied). *)
Record LoadEnv := {
  fetched : completion jsstring;
  setItem_reply : completion unit;
  getItem_reply : completion (option jsstring);
}.

(** The fallback of the load effect: the id saved in the local storage,
    or else a demo manuscript ([createDemoManuscript] catches its own
    errors).  It gives the actions made and whether it threw. *)
Definition loadSaved (getItem : completion (option jsstring))
  : list LoadAction * completion unit :=
  match getItem with
  | Normal (Some savedManuscriptId) =>
    if negb (streq savedManuscriptId [])
    then ([SetManuscriptId savedManuscriptId], Normal tt)
    else ([CreateDemoManuscript], Normal tt)
  | Normal None => ([CreateDemoManuscript], Normal tt)
  | Throw err => ([], Throw err)
  end.

(** The two [.then] callbacks of the load effect. *)
Definition loadFetched (env : LoadEnv) : list LoadAction * completion unit :=
  match fetched env with
  | Normal id =>
    if negb (streq (trim id) []) then
      let newId := trim id in
      match setItem_reply env with
      | Normal _ => ([SetManuscriptId newId; StoreManuscriptId newId], Normal tt)
      | Throw err => ([SetManuscriptId newId], Throw err)
      end
    else loadSaved (getItem_reply env)
  | Throw err => ([], Throw err)
  end.

(** The load effect: [.catch] follows the [.then] callbacks, so it
    also runs when one of them throws after it has acted. *)
Definition loadManuscript (env : LoadEnv) : list LoadAction * completion unit :=
  match loadFetched env with
  | (acts, Normal _) => (acts, Normal tt)
  | (acts, Throw _) =>
    match loadSaved (getItem_reply env) with
    | (acts', c) => (acts ++ acts', c)
    end
  end.

(** Events that can change the content the editor shows. *)
Definition changesContent (ev : BookEditor.event) : bool :=
  match ev with
  | BookEditor.ContentLoaded _ | BookEditor.UndoClicked _
  | BookEditor.RestoreClicked _ _ _ => true
  | _ => false
  end.

(** The stored selection, if any, is valid for the content shown. *)
Definition selectionFits (st : BookEditor.State) : Prop :=
  forall sel mc,
    BookEditor.selection st = Some sel ->
    BookEditor.manuscriptContent st = Some mc ->
    BookEditor.validSelection (content mc) sel.

(** * Properties *)

(** ** Facts about strings *)

Section StringFacts.

Lemma jslength_nonneg s : 0 <= jslength s.
Proof. unfold jslength. lia. Qed.

Lemma jslength_nil_iff s : jslength s = 0 <-> s = [].
Proof.
  unfold jslength. destruct s; simpl; split; intros; try done; lia.
Qed.

Lemma substring_in_range s (a b : Z) :
  0 <= a -> a <= b -> b <= jslength s ->
  substring s a b = take (Z.to_nat (b - a)) (drop (Z.to_nat a) s).
Proof.
  intros Ha Hab Hb. unfold substring.
  replace (Z.min (Z.max a 0) (jslength s)) with a by lia.
  replace (Z.min (Z.max b 0) (jslength s)) with b by lia.
  replace (Z.min a b) with a by lia.
  replace (Z.max a b) with b by lia. done.
Qed.

Lemma substring_length s (a b : Z) :
  0 <= a -> a <= b ->
  jslength (substring s a b) = Z.min b (jslength s) - Z.min a (jslength s).
Proof.
  intros Ha Hab. unfold substring, jslength.
  rewrite length_take, length_drop. lia.
Qed.

Lemma isPrefix_spec p s : isPrefix p s = true <-> take (length p) s = p.
Proof.
  revert s. induction p as [|a p IH]; intros [|b s]; simpl; try done.
  rewrite andb_true_iff, N.eqb_eq, IH. split.
  - intros [-> ->]. done.
  - intros [= -> ->]. done.
Qed.

Lemma isPrefix_occurs p s :
  isPrefix p s = true <-> occurs_at s p 0.
Proof.
  rewrite isPrefix_spec. unfold occurs_at. split.
  - intros H.
    assert (length p <= length s)%nat as Hlen.
    { rewrite <- H at 1. rewrite length_take. lia. }
    split; [lia|]. split; [unfold jslength; lia|].
    rewrite substring_in_range; unfold jslength in *; try lia.
    simpl. replace (Z.to_nat (0 + Z.of_nat (length p) - 0)) with (length p) by lia.
    done.
  - intros (_ & Hlen & H).
    rewrite substring_in_range in H; unfold jslength in *; try lia.
    simpl in H.
    replace (Z.to_nat (0 + Z.of_nat (length p) - 0)) with (length p) in H by lia.
    done.
Qed.

Lemma occurs_at_cons c s t (k : Z) :
  0 <= k -> occurs_at (c :: s) t (k + 1) <-> occurs_at s t k.
Proof.
  intros Hk. unfold occurs_at.
  assert (jslength (c :: s) = jslength s + 1) as Hl
    by (unfold jslength; simpl; lia).
  pose proof (jslength_nonneg t) as Ht.
  split; intros (H0 & H1 & H2).
  - split; [done|]. split; [lia|].
    rewrite substring_in_range in H2 by lia.
    rewrite substring_in_range by lia.
    replace (Z.to_nat (k + 1)) with (S (Z.to_nat k)) in H2 by lia.
    simpl in H2.
    replace (k + 1 + jslength t - (k + 1)) with (k + jslength t - k) in H2 by lia.
    done.
  - split; [lia|]. split; [lia|].
    rewrite substring_in_range in H2 by lia.
    rewrite substring_in_range by lia.
    replace (Z.to_nat (k + 1)) with (S (Z.to_nat k)) by lia.
    simpl.
    replace (k + 1 + jslength t - (k + 1)) with (k + jslength t - k) by lia.
    done.
Qed.

Lemma indexOfFrom_range s t (i : Z) :
  indexOfFrom s t i = -1 \/ i <= indexOfFrom s t i.
Proof.
  revert i. induction s as [|c s IH]; intros i; simpl.
  - destruct (isPrefix t []); [right; lia | by left].
  - destruct (isPrefix t (c :: s)); [right; lia|].
    destruct (IH (i + 1)) as [->| ?]; [by left | right; lia].
Qed.

(** A hit of the search is an occurrence, and the leftmost one. *)
Lemma indexOfFrom_found s t (i : Z) :
  indexOfFrom s t i <> -1 ->
  occurs_at s t (indexOfFrom s t i - i) /\
  forall j, occurs_at s t j -> indexOfFrom s t i - i <= j.
Proof.
  revert i. induction s as [|c s IH]; intros i; simpl.
  - destruct (isPrefix t []) eqn:Hp; [|done]. intros _.
    replace (i - i) with 0 by lia. split.
    + by apply isPrefix_occurs.
    + intros j (Hj & _). done.
  - destruct (isPrefix t (c :: s)) eqn:Hp.
    + intros _. replace (i - i) with 0 by lia. split.
      * by apply isPrefix_occurs.
      * intros j (Hj & _). done.
    + intros Hne. destruct (IH (i + 1) Hne) as [Hocc Hmin].
      destruct (indexOfFrom_range s t (i + 1)) as [?|Hge]; [done|].
      replace (indexOfFrom s t (i + 1) - i)
        with ((indexOfFrom s t (i + 1) - (i + 1)) + 1) by lia.
      assert (0 <= indexOfFrom s t (i + 1) - (i + 1)) as Hk by lia.
      split.
      * apply (proj2 (occurs_at_cons c s t _ Hk)). done.
      * intros j Hj. destruct (decide (j = 0)) as [->|Hj0].
        { apply isPrefix_occurs in Hj. congruence. }
        assert (0 <= j - 1) as Hj1 by (destruct Hj; lia).
        replace j with ((j - 1) + 1) in Hj by lia.
        apply (proj1 (occurs_at_cons c s t _ Hj1)) in Hj.
        specialize (Hmin _ Hj). lia.
Qed.

(** A miss of the search means that there is no occurrence at all. *)
Lemma indexOfFrom_missing s t (i : Z) :
  indexOfFrom s t i = -1 -> 0 <= i -> forall j, ~ occurs_at s t j.
Proof.
  revert i. induction s as [|c s IH]; intros i; simpl.
  - destruct (isPrefix t []) eqn:Hp; [lia|]. intros _ _ j Hj.
    pose proof Hj as (Hj0 & Hj1 & _).
    assert (jslength t = 0) as Ht.
    { pose proof (jslength_nonneg t). unfold jslength in *. simpl in *. lia. }
    apply jslength_nil_iff in Ht. subst t. done.
  - destruct (isPrefix t (c :: s)) eqn:Hp; [lia|].
    intros Hm Hi j Hj. destruct (decide (j = 0)) as [->|Hj0].
    + apply isPrefix_occurs in Hj. congruence.
    + assert (0 <= j - 1) as Hj1 by (destruct Hj; lia).
      replace j with ((j - 1) + 1) in Hj by lia.
      apply (proj1 (occurs_at_cons c s t _ Hj1)) in Hj.
      eapply (IH (i + 1)); [done | lia | done].
Qed.

Lemma indexOf_found s t :
  indexOf s t <> -1 ->
  occurs_at s t (indexOf s t) /\
  forall j, occurs_at s t j -> indexOf s t <= j.
Proof.
  intros H. unfold indexOf in *.
  destruct (indexOfFrom_found s t 0 H) as [H1 H2].
  replace (indexOfFrom s t 0 - 0) with (indexOfFrom s t 0) in * by lia.
  split; [done|]. intros j Hj. specialize (H2 j Hj). lia.
Qed.

Lemma indexOf_missing s t :
  indexOf s t = -1 <-> forall j, ~ occurs_at s t j.
Proof.
  split.
  - intros H. by apply (indexOfFrom_missing s t 0).
  - intros H. destruct (decide (indexOf s t = -1)) as [|Hne]; [done|].
    apply indexOf_found in Hne as [Hocc _]. by apply H in Hocc.
Qed.

Lemma trimStart_nil_iff s :
  trimStart s = [] <-> Forall (fun c => isWhiteSpace c = true) s.
Proof.
  induction s as [|c s IH]; simpl.
  - split; [constructor | done].
  - destruct (isWhiteSpace c) eqn:Hc.
    + rewrite IH. split; [by constructor | by inversion 1].
    + split; [done|]. inversion 1; congruence.
Qed.

Lemma trimStart_whitespace s :
  Forall (fun c => isWhiteSpace c = true) (trimStart s) ->
  Forall (fun c => isWhiteSpace c = true) s.
Proof.
  induction s as [|c s IH]; simpl; [done|].
  destruct (isWhiteSpace c) eqn:Hc.
  - intros H. constructor; auto.
  - inversion 1; congruence.
Qed.

(** [trim] returns the empty string exactly on whitespace-only input. *)
Lemma trim_nil_iff s :
  trim s = [] <-> Forall (fun c => isWhiteSpace c = true) s.
Proof.
  unfold trim, trimEnd. split.
  - intros H. apply (f_equal reverse) in H.
    rewrite reverse_involutive in H. simpl in H.
    apply trimStart_nil_iff in H.
    apply (proj1 (Forall_reverse _ _)) in H.
    by apply trimStart_whitespace.
  - intros H. apply trimStart_nil_iff in H. rewrite H. done.
Qed.

End StringFacts.

Example substring_hello : substring (js "Hello world") 0 5 = js "Hello".
Proof. reflexivity. Qed.

Example substring_clamps : substring (js "Hello") 3 100 = js "lo".
Proof. reflexivity. Qed.

Example indexOf_first : indexOf (js "ab ba ba") (js "ba") = 3.
Proof. reflexivity. Qed.

Example indexOf_absent : indexOf (js "Hello world") (js "Howdy") = -1.
Proof. reflexivity. Qed.

Example trim_both_sides : trim (js "  a b  ") = js "a b".
Proof. reflexivity. Qed.


Lemma streq_spec a b : streq a b = true <-> a = b.
Proof.
  revert b. induction a as [|x a IH]; intros [|y b]; simpl; try done.
  rewrite andb_true_iff, N.eqb_eq, IH. split.
  - intros [-> ->]. done.
  - intros [= -> ->]. done.
Qed.

Lemma streq_refl a : streq a a = true.
Proof. by apply streq_spec. Qed.

Lemma streq_false a b : streq a b = false <-> a <> b.
Proof.
  rewrite <- streq_spec. destruct (streq a b); split; congruence.
Qed.


(** ** Selections: what the viewer reports and what the editor stores *)

Arguments substring : simpl never.
Arguments indexOf : simpl never.
Arguments trim : simpl never.
Arguments jslength : simpl never.
Arguments streq : simpl never.

Ltac unfold_M :=
  unfold bind, tryCatch, get, emit, await, throw, ret, modify,
    trace_of, state_of, completion_of in *.

Section Selections.
Import BookEditor.

Lemma stored_app t1 t2 : stored (t1 ++ t2) = stored t1 ++ stored t2.
Proof. apply omap_app. Qed.
Lemma alerts_app t1 t2 : alerts (t1 ++ t2) = alerts t1 ++ alerts t2.
Proof. apply omap_app. Qed.
Lemma applies_app t1 t2 : applies (t1 ++ t2) = applies t1 ++ applies t2.
Proof. apply omap_app. Qed.
Lemma reverts_app t1 t2 : reverts (t1 ++ t2) = reverts t1 ++ reverts t2.
Proof. apply omap_app. Qed.

Lemma silent_app t1 t2 : silent t1 -> silent t2 -> silent (t1 ++ t2).
Proof.
  intros (P1 & P2 & P3 & P4) (Q1 & Q2 & Q3 & Q4). unfold silent.
  rewrite stored_app, alerts_app, applies_app, reverts_app.
  rewrite P1, P2, P3, P4, Q1, Q2, Q3, Q4. done.
Qed.

Lemma run_handleTextSelection (a b : Z) (t : jsstring) (st : State) :
  handleTextSelection a b t st =
  match manuscriptContent st with
  | Some mc =>
    if (0 <=? a) && (a <? b) && (0 <? jslength t)
       && negb (streq (content mc) [])
    then
      if streq (substring (content mc) a b) t
      then ([SetSelection (Some {| start := a; end_ := b; text := t |})],
            accepted st {| start := a; end_ := b; text := t |}, Normal tt)
      else ([ConsoleWarn "Text selection mismatch, ignoring selection"],
            st, Normal tt)
    else ([], st, Normal tt)
  | None => ([], st, Normal tt)
  end.
Proof.
  unfold handleTextSelection. unfold_M.
  destruct (manuscriptContent st) as [mc|] eqn:Hmc; [|done].
  destruct ((0 <=? a) && (a <? b) && (0 <? jslength t)
            && negb (streq (content mc) [])); [|done].
  destruct (streq (substring (content mc) a b) t); done.
Qed.

(** A text found at [a] with the end computed from its length is a
    valid selection. *)
Lemma valid_of_match (c t : jsstring) (a : Z) :
  0 <= a -> 0 < jslength t -> substring c a (a + jslength t) = t ->
  validSelection c {| start := a; end_ := a + jslength t; text := t |}.
Proof.
  intros Ha Ht Hsub. unfold validSelection. simpl.
  split; [done|]. split; [lia|]. split; [|done].
  pose proof (substring_length c a (a + jslength t) Ha ltac:(lia)) as Hlen.
  rewrite Hsub in Hlen. pose proof (jslength_nonneg c). lia.
Qed.

Lemma valid_content_nonempty (c : jsstring) (sel : Selection) :
  validSelection c sel -> streq c [] = false.
Proof.
  intros (H0 & H1 & H2 & _). apply streq_false. intros ->.
  unfold jslength in H2. simpl in H2. lia.
Qed.

Lemma valid_end (c : jsstring) (sel : Selection) :
  validSelection c sel -> end_ sel = start sel + jslength (text sel).
Proof.
  intros (H0 & H1 & H2 & H3).
  pose proof (substring_length c (start sel) (end_ sel) H0 ltac:(lia)) as Hlen.
  rewrite H3 in Hlen. lia.
Qed.

(** A valid triple passes the guards of [handleTextSelection]. *)
Lemma handleTextSelection_valid (st : State) (mc : ManuscriptContent)
    (sel : Selection) :
  manuscriptContent st = Some mc ->
  validSelection (content mc) sel ->
  handleTextSelection (start sel) (end_ sel) (text sel) st =
  ([SetSelection (Some sel)], accepted st sel, Normal tt).
Proof.
  intros Hmc Hv. rewrite run_handleTextSelection, Hmc.
  pose proof (valid_end _ _ Hv) as He.
  pose proof (valid_content_nonempty _ _ Hv) as Hne.
  destruct Hv as (H0 & H1 & H2 & H3).
  rewrite H3, streq_refl, Hne.
  replace (0 <=? start sel) with true by (symmetry; lia).
  replace (start sel <? end_ sel) with true by (symmetry; lia).
  replace (0 <? jslength (text sel)) with true by (symmetry; lia).
  simpl. by destruct sel.
Qed.

Lemma handleTextSelection_outcome (a : Z) (t : jsstring) (st : State) :
  outcome st (handleTextSelection a (a + jslength t) t st).
Proof.
  rewrite run_handleTextSelection.
  destruct (manuscriptContent st) as [mc|] eqn:Hmc; [|by constructor].
  destruct ((0 <=? a) && (a <? a + jslength t) && (0 <? jslength t)
            && negb (streq (content mc) [])) eqn:Hg; [|by constructor].
  destruct (streq (substring (content mc) a (a + jslength t)) t) eqn:Hs;
    [|by constructor].
  apply streq_spec in Hs.
  repeat (apply andb_prop in Hg as [Hg ?]).
  eapply outcome_stored; [done| |done..].
  apply valid_of_match; [lia | lia | done].
Qed.

Lemma outcome_frame (st s' : State) (c : completion unit)
    (pre t post : list effect) :
  silent pre -> silent post ->
  outcome st (t, s', c) -> outcome st (pre ++ t ++ post, s', c).
Proof.
  intros Hpre Hpost H. inversion H as [t0 Ht|t0 mc sel Hmc Hv R1 R2 R3 R4]; subst.
  - apply outcome_ignored. by repeat apply silent_app.
  - destruct Hpre as (P1 & P2 & P3 & P4), Hpost as (Q1 & Q2 & Q3 & Q4).
    eapply outcome_stored; [done | done | | | |];
      rewrite ?stored_app, ?alerts_app, ?applies_app, ?reverts_app;
      rewrite ?P1, ?P2, ?P3, ?P4, ?Q1, ?Q2, ?Q3, ?Q4, ?R1, ?R2, ?R3, ?R4; done.
Qed.

(** One mouse-up in the viewer either changes nothing or stores one
    valid selection; it never throws, alerts or sends a request. *)
Lemma viewer_mouseUp_outcome (dom : Dom) (st : State) :
  outcome st (viewer_mouseUp dom st).
Proof.
  unfold viewer_mouseUp, ManuscriptViewer.handleMouseUp. unfold_M.
  destruct (manuscriptContent st) as [mc|] eqn:Hmc; [|by constructor].
  destruct (negb (truthy (manuscriptId st))); [by constructor|].
  destruct (negb (contentRef_current dom)); [by constructor|].
  destruct (windowSelection dom) as [ws|]; [|by constructor].
  destruct (rangeCount ws =? 0)%nat; [by constructor|].
  destruct (jslength (trim (range_toString ws)) =? 0); [by constructor|].
  destruct (textBeforeSelection_length ws) as [a|err].
  - destruct ((0 <=? a) && (a + jslength (range_toString ws) <=? jslength (content mc))
              && (a <? a + jslength (range_toString ws))).
    + generalize (handleTextSelection_outcome a (range_toString ws) st).
      destruct (handleTextSelection a (a + jslength (range_toString ws))
                  (range_toString ws) st) as [[t1 s1] c1].
      intros H. inversion H; subst; simpl;
        apply (outcome_frame _ _ _ [ConsoleLog _] _ [SetIsSelecting false]);
        try done.
    + destruct (negb (indexOf (content mc) (trim (range_toString ws)) =? -1)).
      * generalize (handleTextSelection_outcome
                      (indexOf (content mc) (trim (range_toString ws)))
                      (trim (range_toString ws)) st).
        destruct (handleTextSelection _ _ _ st) as [[t1 s1] c1].
        intros H. inversion H; subst; simpl;
          apply (outcome_frame _ _ _ [ConsoleLog _; ConsoleWarn _] _
                   [SetIsSelecting false]); try done.
      * simpl. by constructor.
  - destruct (negb (indexOf (content mc) (trim (range_toString ws)) =? -1)).
    + generalize (handleTextSelection_outcome
                    (indexOf (content mc) (trim (range_toString ws)))
                    (trim (range_toString ws)) st).
      destruct (handleTextSelection _ _ _ st) as [[t1 s1] c1].
      intros H. inversion H; subst; simpl;
        apply (outcome_frame _ _ _ [ConsoleError _] _ [SetIsSelecting false]);
        try done.
    + simpl. by constructor.
Qed.

Lemma viewer_mouseUp_simple_outcome (dom : Dom) (st : State) :
  outcome st (viewer_mouseUp_simple dom st).
Proof.
  unfold viewer_mouseUp_simple, ManuscriptViewerSimple.handleMouseUp. unfold_M.
  destruct (manuscriptContent st) as [mc|] eqn:Hmc; [|by constructor].
  destruct (negb (truthy (manuscriptId st))); [by constructor|].
  destruct (negb (contentRef_current dom)); [by constructor|].
  destruct (windowSelection dom) as [ws|]; [|by constructor].
  destruct (rangeCount ws =? 0)%nat; [by constructor|].
  destruct (jslength (trim (range_toString ws)) =? 0); [by constructor|].
  destruct (negb (indexOf (content mc) (trim (range_toString ws)) =? -1)).
  - generalize (handleTextSelection_outcome
                  (indexOf (content mc) (trim (range_toString ws)))
                  (trim (range_toString ws)) st).
    destruct (handleTextSelection _ _ _ st) as [[t1 s1] c1].
    intros H. inversion H; subst; simpl;
      apply (outcome_frame _ _ _ [] _ [SetIsSelecting false]); try done.
  - simpl. by constructor.
Qed.

Lemma In_stored (t : list effect) (v : option Selection) :
  In (SetSelection v) t -> In v (stored t).
Proof.
  induction t as [|e t IH]; simpl; [done|].
  intros [->|H]; [by left|].
  unfold stored in *. simpl. destruct e; simpl; auto.
Qed.

Lemma In_alerts (t : list effect) (msg : string) :
  In (Alert msg) t -> In msg (alerts t).
Proof.
  induction t as [|e t IH]; simpl; [done|].
  intros [->|H]; [by left|].
  unfold alerts in *. simpl. destruct e; simpl; auto.
Qed.

Lemma handleSuggestEdits_range (st : State) (sel : Selection)
    (instruction : jsstring) (request : EditSuggestRequest) :
  selection st = Some sel ->
  In (ApiSuggest request) (trace_of (handleSuggestEdits instruction st)) ->
  target_range request = (start sel, end_ sel).
Proof.
  intros Hsel. unfold handleSuggestEdits, setIsLoading. unfold_M. rewrite Hsel.
  destruct (manuscriptId st) as [mid|]; [|done].
  destruct (negb (truthy (Some mid))); simpl; [done|].
  intros [[= <-]|[]]. done.
Qed.

(** On its own [handleTextSelection] compares the text with the clamped
    substring, so it would take an end beyond the content; the viewers
    never pass one, they compute the end from the length of the text. *)
Example handleTextSelection_clamped_end :
  selection (state_of (handleTextSelection 6 100 (js "world")
                         (editorShowing (js "Hello world"))))
  = Some {| start := 6; end_ := 100; text := js "world" |}.
Proof. reflexivity. Qed.

(** A selection that a mouse-up stores (with either revision of the
    viewer) lies within the content the editor shows at that moment,
    [0 <= start < end <= length(content)], and its text is exactly
    [content[start:end]]; it becomes the editor's selection, and the
    target range of a suggestion request sent right after is that
    range. *)
Lemma stored_selection_valid (handler : Dom -> M State unit)
    (st : State) (mc : ManuscriptContent) (dom : Dom) (sel : Selection) :
  handler = viewer_mouseUp \/ handler = viewer_mouseUp_simple ->
  manuscriptContent st = Some mc ->
  In (SetSelection (Some sel)) (trace_of (handler dom st)) ->
  (0 <= start sel /\ start sel < end_ sel /\
   end_ sel <= jslength (content mc) /\
   substring (content mc) (start sel) (end_ sel) = text sel) /\
  selection (state_of (handler dom st)) = Some sel /\
  forall instruction request,
    In (ApiSuggest request)
       (trace_of (handleSuggestEdits instruction (state_of (handler dom st)))) ->
    target_range request = (start sel, end_ sel).
Proof.
  intros Hh Hmc Hin.
  assert (outcome st (handler dom st)) as Hout.
  { destruct Hh as [->| ->];
      [apply viewer_mouseUp_outcome | apply viewer_mouseUp_simple_outcome]. }
  destruct (handler dom st) as [[t s'] c]. unfold trace_of, state_of in *.
  simpl in *. apply In_stored in Hin.
  inversion Hout as [t0 (Hs & _)|t0 mc' sel' Hmc' Hv Hs _ _ _]; subst.
  - rewrite Hs in Hin. done.
  - rewrite Hs in Hin. destruct Hin as [[= ->]|[]].
    rewrite Hmc in Hmc'. injection Hmc' as <-.
    split; [exact Hv|]. split; [done|].
    intros instruction request. by apply handleSuggestEdits_range.
Qed.

(** C3.  The code breaks the claim for the target range of an edit
    session.  The selection (9, 13, "sat.") is stored for the content
    "A feline sat." and is valid for it.  An undo then brings back the
    content "A cat sat.", ten code units long, and leaves the stored
    selection as it is, so the suggestion request that follows carries
    the target range (9, 13), which does not lie within the content.
    The callback of a successful apply, which reloads the content as
    well, clears the selection. *)
Theorem selection_outlives_content :
  let st := editorShowing (js "A feline sat.") in
  let sel := {| start := 9; end_ := 13; text := js "sat." |} in
  let r := runEvents staleSelectionRun st in
  validSelection (js "A feline sat.") sel /\
  stored (trace_of r) = [Some sel] /\
  reverts (trace_of r) = [("m1"%string, "v1"%string)] /\
  manuscriptContent (state_of r) = Some {| content := js "A cat sat." |} /\
  selection (state_of r) = Some sel /\
  target_range <$> suggests (trace_of r) = [(9, 13)] /\
  jslength (js "A cat sat.") = 10 /\
  ~ validSelection (js "A cat sat.") sel /\
  selection (state_of (runEvents [MouseUp (mouseUpAt (js "sat.") (Normal 9));
                                  ApplySucceeded] st)) = None.
Proof.
  split_and!; try reflexivity.
  - split_and!; by vm_compute.
  - intros (_ & _ & H & _). vm_compute in H. by apply H.
Qed.

(** C4, as stated, fails on a whitespace-only selection: the offset
    pair (1, 2, " ") is valid in "a b", yet the viewer reports nothing
    and the editor stores nothing. *)
Lemma direct_accept_counterexample :
  let c := js "a b" in
  let dom := mouseUpAt (js " ") (Normal 1) in
  validSelection c {| start := 1; end_ := 2; text := js " " |} /\
  reported c dom = [] /\
  reported c dom <> [(1, 2, js " ")] /\
  viewer_mouseUp dom (editorShowing c) = ([], editorShowing c, Normal tt).
Proof.
  repeat split; try done; vm_compute; congruence.
Qed.

(** C4, amended.  When the reported offset pair satisfies
    [0 <= start < end <= length(content)] and [content[start:end]]
    equals the reported text, and that text is not whitespace only,
    the viewer reports the triple unchanged and the editor stores it. *)
Theorem direct_accept (st : State) (mc : ManuscriptContent) (dom : Dom)
    (ws : WindowSelection) (sel : Selection) :
  manuscriptContent st = Some mc ->
  truthy (manuscriptId st) = true ->
  contentRef_current dom = true ->
  windowSelection dom = Some ws ->
  rangeCount ws <> 0%nat ->
  range_toString ws = text sel ->
  textBeforeSelection_length ws = Normal (start sel) ->
  validSelection (content mc) sel ->
  trim (text sel) <> [] ->
  reported (content mc) dom = [(start sel, end_ sel, text sel)] /\
  viewer_mouseUp dom st =
    ([ConsoleLog "Selection details:"; SetSelection (Some sel);
      SetIsSelecting false],
     accepted st sel, Normal tt).
Proof.
  intros Hmc Hid Hatt Hws Hrc Hraw Hoff Hv Htrim.
  pose proof (valid_end _ _ Hv) as He.
  assert ((jslength (trim (text sel)) =? 0) = false) as Hnz.
  { apply Z.eqb_neq. intros H0. by apply jslength_nil_iff in H0. }
  assert ((0 <=? start sel)
          && (start sel + jslength (text sel) <=? jslength (content mc))
          && (start sel <? start sel + jslength (text sel)) = true) as Hb.
  { destruct Hv as (H0 & H1 & H2 & _). rewrite !andb_true_iff. lia. }
  assert ((rangeCount ws =? 0)%nat = false) as Hrc' by (by apply Nat.eqb_neq).
  split.
  - unfold reported, ManuscriptViewer.handleMouseUp. unfold_M.
    rewrite Hatt, Hws, Hrc', Hraw, Hnz, Hoff, Hb. simpl. by rewrite He.
  - unfold viewer_mouseUp, ManuscriptViewer.handleMouseUp. unfold_M.
    rewrite Hmc, Hid, Hatt, Hws, Hrc', Hraw, Hnz, Hoff, Hb. simpl.
    rewrite <- He. rewrite (handleTextSelection_valid st mc sel Hmc Hv). done.
Qed.

Lemma direct_accept_witness :
  let st := editorShowing (js "Hello world") in
  let dom := mouseUpAt (js "Hello") (Normal 0) in
  let sel := {| start := 0; end_ := 5; text := js "Hello" |} in
  validSelection (js "Hello world") sel /\
  trim (js "Hello") <> [] /\
  reported (js "Hello world") dom = [(0, 5, js "Hello")] /\
  selection (state_of (viewer_mouseUp dom st)) = Some sel.
Proof.
  intros st dom sel.
  assert (validSelection (js "Hello world") sel) as Hv
    by (repeat split; vm_compute; congruence).
  assert (trim (js "Hello") <> []) as Ht by (vm_compute; congruence).
  destruct (direct_accept st {| content := js "Hello world" |} dom
              {| rangeCount := 1; range_toString := js "Hello";
                 textBeforeSelection_length := Normal 0 |} sel
              eq_refl eq_refl eq_refl eq_refl ltac:(discriminate)
              eq_refl eq_refl Hv Ht) as [Hrep Hrun].
  split; [exact Hv|]. split; [exact Ht|]. split; [exact Hrep|].
  rewrite Hrun. reflexivity.
Defined.

Lemma occurs_indexOf (c t : jsstring) :
  (exists j, occurs_at c t j) -> (indexOf c t =? -1) = false.
Proof.
  intros [j Hj]. apply Z.eqb_neq. intros H.
  by apply (proj1 (indexOf_missing c t) H j).
Qed.

Lemma missing_indexOf (c t : jsstring) :
  (forall j, ~ occurs_at c t j) -> (indexOf c t =? -1) = true.
Proof. intros H. apply Z.eqb_eq. by apply indexOf_missing. Qed.

(** The first occurrence of a non-empty text is a valid selection. *)
Lemma first_occurrence_valid (c t : jsstring) :
  t <> [] -> (exists j, occurs_at c t j) ->
  validSelection c {| start := indexOf c t;
                      end_ := indexOf c t + jslength t; text := t |}.
Proof.
  intros Ht Hocc. apply occurs_indexOf in Hocc. apply Z.eqb_neq in Hocc.
  destruct (indexOf_found c t Hocc) as [(H0 & H1 & H2) _].
  apply valid_of_match; [done| |done].
  pose proof (jslength_nonneg t).
  destruct (decide (jslength t = 0)) as [Hz|]; [|lia].
  by apply jslength_nil_iff in Hz.
Qed.

(** C5, as stated, fails for an offset pair that lies within the
    content but does not match it.  The content is a heading "# Title"
    and a line "Hello"; the user selects "Hello", and the rendered text
    before it is "Title", so the offset pair is (5, 10, "Hello"), which
    is invalid.  "Hello" occurs at 8, yet the viewer reports the pair as
    it is, not the first occurrence (8, 13, "Hello"), and the editor
    ignores it. *)
Lemma fallback_counterexample :
  let c := headedContent in
  let dom := mouseUpAt (js "Hello") (Normal 5) in
  ~ validSelection c {| start := 5; end_ := 10; text := js "Hello" |} /\
  occurs_at c (trim (js "Hello")) 8 /\
  indexOf c (trim (js "Hello")) = 8 /\
  reported c dom = [(5, 10, js "Hello")] /\
  reported c dom <> [(8, 13, js "Hello")] /\
  viewer_mouseUp dom (editorShowing c) =
    ([ConsoleLog "Selection details:";
      ConsoleWarn "Text selection mismatch, ignoring selection";
      SetIsSelecting false],
     editorShowing c, Normal tt).
Proof.
  repeat split; try done; try (vm_compute; congruence).
  intros (_ & _ & _ & H). vm_compute in H. congruence.
Qed.

(** C5, amended.  When the trimmed selected text is not empty and
    occurs in the content, and the offset could not be read or the
    offset pair does not lie within the content, the viewer reports
    [(k, k + length(trimmed), trimmed)] for the smallest index [k] at
    which the trimmed text occurs, and the editor stores it; the
    search-only revision of the viewer does so for every offset.  (An
    offset pair within the content is reported as it is, without a
    search.) *)
Theorem fallback_first_occurrence (st : State) (mc : ManuscriptContent)
    (dom : Dom) (ws : WindowSelection) :
  manuscriptContent st = Some mc ->
  truthy (manuscriptId st) = true ->
  contentRef_current dom = true ->
  windowSelection dom = Some ws ->
  rangeCount ws <> 0%nat ->
  trim (range_toString ws) <> [] ->
  (exists j, occurs_at (content mc) (trim (range_toString ws)) j) ->
  let t := trim (range_toString ws) in
  let k := indexOf (content mc) t in
  let sel := {| start := k; end_ := k + jslength t; text := t |} in
  occurs_at (content mc) t k /\
  (forall j, occurs_at (content mc) t j -> k <= j) /\
  reported_simple (content mc) dom = [(k, k + jslength t, t)] /\
  state_of (viewer_mouseUp_simple dom st) = accepted st sel /\
  (offsetInBounds (content mc) ws = false ->
   reported (content mc) dom = [(k, k + jslength t, t)] /\
   state_of (viewer_mouseUp dom st) = accepted st sel /\
   stored (trace_of (viewer_mouseUp dom st)) = [Some sel]).
Proof.
  intros Hmc Hid Hatt Hws Hrc Htrim Hocc t k sel.
  pose proof (first_occurrence_valid _ _ Htrim Hocc) as Hv.
  pose proof (handleTextSelection_valid st mc sel Hmc Hv) as Hrun.
  pose proof (occurs_indexOf _ _ Hocc) as Hk.
  assert ((jslength t =? 0) = false) as Hnz.
  { apply Z.eqb_neq. intros H0. by apply jslength_nil_iff in H0. }
  assert ((rangeCount ws =? 0)%nat = false) as Hrc' by (by apply Nat.eqb_neq).
  destruct (indexOf_found (content mc) t) as [Hfound Hmin].
  { by apply Z.eqb_neq. }
  split; [exact Hfound|]. split; [exact Hmin|].
  subst t k sel. simpl in Hrun. split; [|split].
  - unfold reported_simple, ManuscriptViewerSimple.handleMouseUp. unfold_M.
    rewrite Hatt, Hws, Hrc', Hnz, Hk. done.
  - unfold viewer_mouseUp_simple, ManuscriptViewerSimple.handleMouseUp.
    unfold_M. rewrite Hmc, Hid, Hatt, Hws, Hrc', Hnz, Hk. simpl.
    rewrite Hrun. done.
  - intros Hoff. unfold offsetInBounds in Hoff.
    unfold reported, viewer_mouseUp, ManuscriptViewer.handleMouseUp. unfold_M.
    rewrite Hmc, Hid, Hatt, Hws, Hrc', Hnz.
    destruct (textBeforeSelection_length ws) as [a|err].
    + rewrite Hoff, Hk. simpl. rewrite Hrun. done.
    + rewrite Hk. simpl. rewrite Hrun. done.
Qed.

Lemma fallback_first_occurrence_witness :
  let c := js "ab ba ba" in
  let st := editorShowing c in
  let dom := mouseUpAt (js " ba ") (Normal 40) in
  trim (js " ba ") <> [] /\
  occurs_at c (trim (js " ba ")) 6 /\
  offsetInBounds c {| rangeCount := 1; range_toString := js " ba ";
                      textBeforeSelection_length := Normal 40 |} = false /\
  reported c dom = [(3, 5, js "ba")] /\
  reported_simple c dom = [(3, 5, js "ba")].
Proof.
  intros c st dom.
  assert (trim (js " ba ") <> []) as Ht by (vm_compute; congruence).
  assert (occurs_at c (trim (js " ba ")) 6) as Ho
    by (repeat split; vm_compute; congruence).
  destruct (fallback_first_occurrence st {| content := c |} dom
              {| rangeCount := 1; range_toString := js " ba ";
                 textBeforeSelection_length := Normal 40 |}
              eq_refl eq_refl eq_refl eq_refl ltac:(discriminate)
              Ht (ex_intro _ 6 Ho))
    as (_ & _ & Hsimple & _ & Hfull).
  destruct (Hfull eq_refl) as (Hrep & _ & _).
  split; [exact Ht|]. split; [exact Ho|]. split; [reflexivity|].
  split; [exact Hrep | exact Hsimple].
Defined.

(** C6, as stated, fails: for "Hello world" and the stale pair
    (0, 5, "Howdy"), which neither validates nor occurs, the handler
    completes normally after a console warning; nothing is thrown,
    nothing is shown to the user, and the state is as before. *)
Lemma unresolved_counterexample :
  let c := js "Hello world" in
  let dom := mouseUpAt (js "Howdy") (Normal 0) in
  let r := viewer_mouseUp dom (editorShowing c) in
  ~ validSelection c {| start := 0; end_ := 5; text := js "Howdy" |} /\
  (forall j, ~ occurs_at c (trim (js "Howdy")) j) /\
  r = ([ConsoleLog "Selection details:";
        ConsoleWarn "Text selection mismatch, ignoring selection";
        SetIsSelecting false],
       editorShowing c, Normal tt) /\
  (forall err, completion_of r <> Throw err) /\
  alerts (trace_of r) = [].
Proof.
  repeat split; try done.
  - intros (_ & _ & _ & H). vm_compute in H. congruence.
  - by apply indexOf_missing.
Qed.

(** C6, amended.  When the offset pair (if one could be read) does not
    validate against the content and the trimmed text occurs nowhere
    in it, the handler completes normally and nothing happens: no
    selection is stored, the state is unchanged, and no error is
    raised or shown to the user.  The handler writes at most to the
    console: the selection details followed by one warning (indices out
    of bounds, or text mismatch), or the logged exception when reading
    the offset threw; the search-only viewer writes nothing. *)
Theorem unresolved_is_ignored (handler : Dom -> M State unit)
    (st : State) (mc : ManuscriptContent) (dom : Dom) (ws : WindowSelection) :
  handler = viewer_mouseUp \/ handler = viewer_mouseUp_simple ->
  manuscriptContent st = Some mc ->
  windowSelection dom = Some ws ->
  (forall a, textBeforeSelection_length ws = Normal a ->
     ~ validSelection (content mc)
         {| start := a; end_ := a + jslength (range_toString ws);
            text := range_toString ws |}) ->
  (forall j, ~ occurs_at (content mc) (trim (range_toString ws)) j) ->
  completion_of (handler dom st) = Normal tt /\
  state_of (handler dom st) = st /\
  stored (trace_of (handler dom st)) = [] /\
  alerts (trace_of (handler dom st)) = [] /\
  consoleOnly (trace_of (handler dom st)) /\
  (trace_of (handler dom st) = [] \/
   (handler = viewer_mouseUp_simple /\
    trace_of (handler dom st) = [SetIsSelecting false]) \/
   (handler = viewer_mouseUp /\
    exists a warning,
      textBeforeSelection_length ws = Normal a /\
      (warning = "Selection indices out of bounds, trying fallback"%string \/
       warning = "Text selection mismatch, ignoring selection"%string) /\
      trace_of (handler dom st) =
        [ConsoleLog "Selection details:"; ConsoleWarn warning;
         SetIsSelecting false]) \/
   (handler = viewer_mouseUp /\
    exists err,
      textBeforeSelection_length ws = Throw err /\
      trace_of (handler dom st) =
        [ConsoleError "Selection error:"; SetIsSelecting false])).
Proof.
  intros Hh Hmc Hws Hinvalid Hmissing.
  pose proof (missing_indexOf _ _ Hmissing) as Hk.
  assert (consoleOnly []) as Hnil by constructor.
  destruct Hh as [->| ->].
  - unfold viewer_mouseUp, ManuscriptViewer.handleMouseUp. unfold_M.
    rewrite Hmc, Hws.
    destruct (negb (truthy (manuscriptId st))); [by split_and!; auto|].
    destruct (negb (contentRef_current dom)); [by split_and!; auto|].
    destruct (rangeCount ws =? 0)%nat; [by split_and!; auto|].
    destruct (jslength (trim (range_toString ws)) =? 0); [by split_and!; auto|].
    destruct (textBeforeSelection_length ws) as [a|err] eqn:Hoff.
    + destruct ((0 <=? a) && _ && _) eqn:Hb.
      * rewrite run_handleTextSelection, Hmc.
        destruct ((0 <=? a) && (a <? a + jslength (range_toString ws))
                  && (0 <? jslength (range_toString ws))
                  && negb (streq (content mc) [])) eqn:Hg.
        -- destruct (streq _ (range_toString ws)) eqn:Hs.
           ++ exfalso. apply (Hinvalid a eq_refl).
              apply streq_spec in Hs. repeat (apply andb_prop in Hg as [Hg ?]).
              apply valid_of_match; [lia | lia | done].
           ++ simpl. split_and!; try done.
              ** by repeat constructor.
              ** right. right. left. split; [done|].
                 eexists _, _. split_and!; [done | by right | done].
        -- exfalso. apply andb_false_iff in Hg as [Hg|Hg].
           ++ repeat (apply andb_prop in Hb as [Hb ?]).
              pose proof (jslength_nonneg (range_toString ws)). lia.
           ++ apply negb_false_iff, streq_spec in Hg.
              repeat (apply andb_prop in Hb as [Hb ?]).
              rewrite Hg in *. change (jslength []) with 0 in *.
              pose proof (jslength_nonneg (range_toString ws)). lia.
      * rewrite Hk. simpl. split_and!; try done.
        -- by repeat constructor.
        -- right. right. left. split; [done|].
           eexists _, _. split_and!; [done | by left | done].
    + rewrite Hk. simpl. split_and!; try done.
      * by repeat constructor.
      * right. right. right. split; [done|]. by eexists.
  - unfold viewer_mouseUp_simple, ManuscriptViewerSimple.handleMouseUp.
    unfold_M. rewrite Hmc, Hws.
    destruct (negb (truthy (manuscriptId st))); [by split_and!; auto|].
    destruct (negb (contentRef_current dom)); [by split_and!; auto|].
    destruct (rangeCount ws =? 0)%nat; [by split_and!; auto|].
    destruct (jslength (trim (range_toString ws)) =? 0); [by split_and!; auto|].
    rewrite Hk. simpl. split_and!; try done.
    + by repeat constructor.
    + right. left. done.
Qed.

Lemma unresolved_is_ignored_witness :
  let c := js "Hello world" in
  let st := editorShowing c in
  let dom := mouseUpAt (js "Howdy") (Normal 0) in
  ~ validSelection c {| start := 0; end_ := 5; text := js "Howdy" |} /\
  (forall j, ~ occurs_at c (trim (js "Howdy")) j) /\
  completion_of (viewer_mouseUp dom st) = Normal tt /\
  state_of (viewer_mouseUp dom st) = st /\
  consoleOnly (trace_of (viewer_mouseUp dom st)).
Proof.
  intros c st dom.
  assert (~ validSelection c {| start := 0; end_ := 5; text := js "Howdy" |})
    as Hinv.
  { intros (_ & _ & _ & H). vm_compute in H. congruence. }
  assert (forall j, ~ occurs_at c (trim (js "Howdy")) j) as Hmiss
    by (by apply indexOf_missing).
  destruct (unresolved_is_ignored viewer_mouseUp st {| content := c |} dom
              {| rangeCount := 1; range_toString := js "Howdy";
                 textBeforeSelection_length := Normal 0 |}
              (or_introl eq_refl) eq_refl eq_refl
              ltac:(intros a [= <-]; exact Hinv)
              Hmiss) as (Hc & Hs & _ & _ & Hq & _).
  split; [exact Hinv|]. split; [exact Hmiss|]. split; [exact Hc|].
  split; [exact Hs | exact Hq].
Defined.

End Selections.

(** ** Edit sessions in the editor and undo *)

Section Sessions.
Import BookEditor.

Lemma In_applies (t : list effect) (sid oid : string) :
  In (ApiApply sid oid) t -> In (sid, oid) (applies t).
Proof.
  induction t as [|e t IH]; simpl; [done|].
  intros [->|H]; [by left|].
  unfold applies in *. simpl. destruct e; simpl; auto.
Qed.

Lemma outcome_session (st : State) (r : list effect * State * completion unit) :
  outcome st r ->
  applies (trace_of r) = [] /\
  ((state_of r = st /\ stored (trace_of r) = []) \/
   exists sel, state_of r = accepted st sel /\ stored (trace_of r) = [Some sel]).
Proof.
  intros H. inversion H as [t Hsil|t mc sel Hmc Hv Hs Hal Ha Hr]; subst.
  - destruct Hsil as (Hs & _ & Ha & _). split; [done|]. by left.
  - split; [done|]. right. by exists sel.
Qed.

(** Without a usable session id nothing is sent for apply. *)
Lemma handleApplyEdit_run (optionId : string) (st : State) :
  handleApplyEdit optionId st =
  match editSessionId st with
  | Some sid =>
    if truthy (Some sid) then ([ApiApply sid optionId], st, Normal tt)
    else ([], st, Normal tt)
  | None => ([], st, Normal tt)
  end.
Proof.
  unfold handleApplyEdit. unfold_M.
  destruct (editSessionId st) as [sid|]; [|done].
  by destruct (truthy (Some sid)).
Qed.

Lemma handleUndo_session (env : UndoEnv) (st : State) :
  applies (trace_of (handleUndo env st)) = [] /\
  editSessionId (state_of (handleUndo env st)) = editSessionId st /\
  editOptions (state_of (handleUndo env st)) = editOptions st /\
  selection (state_of (handleUndo env st)) = selection st.
Proof.
  unfold handleUndo, refetchContent, setManuscriptContent. unfold_M.
  destruct (manuscriptId st) as [mid|]; [|done].
  destruct (negb (truthy (Some mid))); [done|].
  destruct (getHistory_reply env) as [h|err]; [|done].
  destruct (versions h) as [vs|]; [|done].
  destruct vs as [|cur [|prev rest]]; try done. simpl.
  destruct (confirm_reply env); [|done]. simpl.
  destruct (revert_reply env); [|done].
  destruct (refetchContent_reply env); done.
Qed.

Lemma handleRevertToVersion_session (env : RevertEnv) (v : string) (st : State) :
  applies (trace_of (handleRevertToVersion env v st)) = [] /\
  editSessionId (state_of (handleRevertToVersion env v st)) = editSessionId st /\
  editOptions (state_of (handleRevertToVersion env v st)) = editOptions st /\
  selection (state_of (handleRevertToVersion env v st)) = selection st.
Proof.
  unfold handleRevertToVersion, refetchContent, setManuscriptContent, setShowHistory. unfold_M.
  destruct (manuscriptId st) as [mid|]; [|done].
  destruct (negb (truthy (Some mid))); [done|].
  destruct (rv_revert_reply env); [|done].
  destruct (rv_refetchContent_reply env); done.
Qed.

Lemma handleSuggestEdits_session (instruction : jsstring) (st : State) :
  applies (trace_of (handleSuggestEdits instruction st)) = [] /\
  editSessionId (state_of (handleSuggestEdits instruction st)) = editSessionId st.
Proof.
  unfold handleSuggestEdits, setIsLoading. unfold_M.
  destruct (selection st); [|done].
  destruct (manuscriptId st) as [mid|]; [|done].
  destruct (negb (truthy (Some mid))); done.
Qed.

(** What one event does to the session: only a click on a rendered
    apply button sends an apply request, and it carries the id of the
    session the editor holds; only the reply to a suggestion request
    installs a session. *)
Lemma dispatch_session (ev : event) (st : State) :
  let r := dispatch ev st in
  (applies (trace_of r) = [] \/
   exists sid oid, editSessionId st = Some sid /\ In oid (applyButtons st) /\
                   applies (trace_of r) = [(sid, oid)]) /\
  ((exists data, ev = SuggestSucceeded data /\
                 editSessionId (state_of r) = Some (resp_edit_session_id data)) \/
   editSessionId (state_of r) = editSessionId st \/
   editSessionId (state_of r) = None).
Proof.
  destruct ev; simpl.
  - destruct (outcome_session st _ (viewer_mouseUp_outcome dom st))
      as [Ha [[Hs _]|(sel & Hs & _)]]; rewrite Hs; auto.
  - unfold EditConsole.handleSuggest. unfold_M.
    destruct (streq (trim instruction0) []); [auto|].
    destruct (isLoading st); [auto|]. simpl.
    destruct (selection st) eqn:Hsel; [|auto].
    destruct (handleSuggestEdits_session (trim instruction0) st) as [Ha Hs].
    destruct (handleSuggestEdits (trim instruction0) st) as [[t s'] c].
    unfold trace_of, state_of in *. simpl in *. auto.
  - split; [by left|]. left. by eexists.
  - auto.
  - unfold EditConsole.handleApply. unfold_M.
    destruct (bool_decide (optionId ∈ applyButtons st)) eqn:Hb; [|auto].
    apply bool_decide_eq_true in Hb. apply list_elem_of_In in Hb.
    destruct confirmed; [|auto].
    rewrite handleApplyEdit_run.
    destruct (editSessionId st) as [sid|] eqn:Hsid; [|auto].
    destruct (truthy (Some sid)); [|auto]. simpl.
    split; [|auto]. right. exists sid, optionId. auto.
  - auto.
  - auto.
  - destruct (handleUndo_session env st) as (Ha & Hs & _). auto.
  - unfold VersionHistory.handleRevert. unfold_M.
    destruct (showHistory st); [|auto].
    destruct (is_current version); [auto|].
    destruct confirmed; [|auto].
    destruct (handleRevertToVersion_session env (id version) st) as (Ha & Hs & _).
    destruct (handleRevertToVersion env (id version) st) as [[t s'] c].
    unfold trace_of, state_of in *. simpl in *. auto.
  - auto.
  - auto.
  - auto.
Qed.

Lemma runEvents_cons (ev : event) (evs : list event) (st : State) :
  trace_of (runEvents (ev :: evs) st) =
    trace_of (dispatch ev st) ++ trace_of (runEvents evs (state_of (dispatch ev st))) /\
  state_of (runEvents (ev :: evs) st) =
    state_of (runEvents evs (state_of (dispatch ev st))).
Proof.
  simpl. unfold_M.
  destruct (dispatch ev st) as [[t1 s1] [[]|err]]; simpl;
    destruct (runEvents evs s1) as [[t2 s2] c2]; simpl;
    rewrite ?app_nil_r; done.
Qed.

(** A session that the editor does not hold, and that no later reply
    installs, gets no apply request from any run of events. *)
Lemma discarded_never_applied (evs : list event) (st : State) (sid : string) :
  editSessionId st <> Some sid ->
  (forall data, In (SuggestSucceeded data) evs -> resp_edit_session_id data <> sid) ->
  (forall oid, ~ In (sid, oid) (applies (trace_of (runEvents evs st)))) /\
  editSessionId (state_of (runEvents evs st)) <> Some sid.
Proof.
  revert st. induction evs as [|ev evs IH]; intros st Hne Hevs.
  - split; [|done]. intros oid []. 
  - destruct (runEvents_cons ev evs st) as [-> ->].
    destruct (dispatch_session ev st) as [Ha Hs].
    assert (editSessionId (state_of (dispatch ev st)) <> Some sid) as Hne'.
    { destruct Hs as [(data & -> & Hs)|[Hs|Hs]]; rewrite Hs; [|done..].
      intros [= Heq]. apply (Hevs data); [by left | done]. }
    destruct (IH _ Hne') as [IHa IHs].
    { intros data Hin. apply Hevs. by right. }
    split; [|done]. intros oid Hin. rewrite applies_app in Hin.
    apply in_app_or in Hin as [Hin|Hin]; [|by apply (IHa oid)].
    destruct Ha as [Ha|(sid' & oid' & Hsid & _ & Ha)]; rewrite Ha in Hin; [done|].
    destruct Hin as [[= -> ->]|[]]. done.
Qed.

(** The editor holds at most one session.  A mouse-up that stores a
    selection discards the session and its options; the reply to a
    suggestion request replaces the session and the options by the new
    ones; a successful apply clears session, options and selection.
    An apply request is sent only for an option of the session the
    editor holds. *)
Lemma one_session_held :
  (forall st dom sel,
     In (SetSelection (Some sel)) (trace_of (viewer_mouseUp dom st)) ->
     editSessionId (state_of (viewer_mouseUp dom st)) = None /\
     editOptions (state_of (viewer_mouseUp dom st)) = [] /\
     forall oid confirmed,
       applies (trace_of (dispatch (ApplyClicked oid confirmed)
                            (state_of (viewer_mouseUp dom st)))) = []) /\
  (forall st data,
     editSessionId (state_of (suggestEditsMutation_onSuccess data st))
       = Some (resp_edit_session_id data) /\
     editOptions (state_of (suggestEditsMutation_onSuccess data st))
       = options data) /\
  (forall st,
     editSessionId (state_of (applyEditMutation_onSuccess st)) = None /\
     editOptions (state_of (applyEditMutation_onSuccess st)) = [] /\
     selection (state_of (applyEditMutation_onSuccess st)) = None) /\
  (forall st ev sid oid,
     In (ApiApply sid oid) (trace_of (dispatch ev st)) ->
     editSessionId st = Some sid /\ In oid (applyButtons st)).
Proof.
  split; [|split; [|split]].
  - intros st dom sel Hin. apply In_stored in Hin.
    destruct (outcome_session st _ (viewer_mouseUp_outcome dom st))
      as [_ [[_ Hst]|(sel' & Hs & _)]].
    + rewrite Hst in Hin. done.
    + rewrite Hs. split; [done|]. split; [done|]. intros oid confirmed.
      destruct (dispatch_session (ApplyClicked oid confirmed) (accepted st sel'))
        as [[Ha|(sid & ? & Hsid & _)] _]; [done|]. simpl in Hsid. done.
  - done.
  - done.
  - intros st ev sid oid Hin. apply In_applies in Hin.
    destruct (dispatch_session ev st) as [[Ha|(sid' & oid' & Hsid & Hoid & Ha)] _];
      rewrite Ha in Hin; [done|].
    destruct Hin as [[= <- <-]|[]]. done.
Qed.

(** C9.  The code breaks the claim when a reply is still on its way.
    The user selects "cat" (2, 5) and asks for suggestions; while the
    request is pending the user selects "sat" (6, 9), which is accepted
    and leaves the editor without session and options.  The reply to
    the pending request then installs its session and its options,
    which were made for "cat", under the selection "sat", and a click
    on the option sends an apply request for that session. *)
Theorem stale_reply_applied :
  let st := editorIdle (js "A cat sat.") in
  let sat := {| start := 6; end_ := 9; text := js "sat" |} in
  let pending := runEvents (take 3 staleReplyRun) st in
  let r := runEvents staleReplyRun st in
  target_range <$> suggests (trace_of r) = [(2, 5)] /\
  stored (trace_of r)
    = [Some {| start := 2; end_ := 5; text := js "cat" |}; Some sat] /\
  selection (state_of pending) = Some sat /\
  editSessionId (state_of pending) = None /\
  editOptions (state_of pending) = [] /\
  isLoading (state_of pending) = true /\
  selection (state_of r) = Some sat /\
  editSessionId (state_of r) = Some "s1"%string /\
  editOptions (state_of r) = [sampleOption] /\
  before sampleOption = js "cat" /\
  applyButtons (state_of r) = ["o1"%string] /\
  applies (trace_of r) = [("s1"%string, "o1"%string)].
Proof. by split_and!. Qed.

End Sessions.

Section Undo.
Import BookEditor.

(** The reverts that one undo issues, for every reply of the history
    request. *)
Lemma handleUndo_reverts (env : UndoEnv) (st : State) (mid : string)
    (h : HistoryResponse) :
  manuscriptId st = Some mid ->
  truthy (Some mid) = true ->
  getHistory_reply env = Normal h ->
  reverts (trace_of (handleUndo env st)) =
  match versions h with
  | Some (_ :: previousVersion :: _) =>
    if confirm_reply env then [(mid, id previousVersion)] else []
  | _ => []
  end.
Proof.
  intros Hmid Ht Hh. unfold handleUndo, refetchContent, setManuscriptContent. unfold_M.
  rewrite Hmid, Ht, Hh. simpl.
  destruct (versions h) as [vs|]; [|done].
  destruct vs as [|cur [|prev rest]]; try done. simpl.
  destruct (confirm_reply env); [|done]. simpl.
  destruct (revert_reply env); [|done].
  destruct (refetchContent_reply env); done.
Qed.

(** C10, as stated, fails when the user declines the dialog: with two
    entries in the history and the answer "cancel", undo issues no
    revert. *)
Lemma undo_counterexample :
  let st := editorShowing (js "A feline sat.") in
  let env := undoEnv sampleHistory false in
  (exists vs, versions sampleHistory = Some vs /\ length vs = 2%nat) /\
  reverts (trace_of (handleUndo env st)) = [] /\
  trace_of (handleUndo env st) =
    [ApiGetHistory "m1"; Confirm "Undo to previous version?"].
Proof. split; [by eexists|]. split; reflexivity. Qed.

(** C10, amended.  When the history has fewer than two entries (or
    none is returned), undo issues no revert.  When it has at least
    two, undo asks for confirmation; if the user confirms it issues
    exactly one revert, whose target is the second entry of the
    newest-first list, and if the user declines it issues none. *)
Theorem undo_reverts_previous (env : UndoEnv) (st : State) (mid : string)
    (h : HistoryResponse) :
  manuscriptId st = Some mid ->
  truthy (Some mid) = true ->
  getHistory_reply env = Normal h ->
  match versions h with
  | None => reverts (trace_of (handleUndo env st)) = []
  | Some vs =>
    if (length vs <? 2)%nat
    then reverts (trace_of (handleUndo env st)) = []
    else exists previousVersion,
           vs !! 1%nat = Some previousVersion /\
           In (Confirm "Undo to previous version?") (trace_of (handleUndo env st)) /\
           reverts (trace_of (handleUndo env st)) =
             if confirm_reply env then [(mid, id previousVersion)] else []
  end.
Proof.
  intros Hmid Ht Hh.
  rewrite (handleUndo_reverts env st mid h Hmid Ht Hh).
  destruct (versions h) as [vs|] eqn:Hvs; [|done].
  destruct vs as [|cur [|prev rest]]; try done. simpl.
  exists prev. split; [done|]. split; [|done].
  unfold handleUndo, refetchContent, setManuscriptContent. unfold_M.
  rewrite Hmid, Ht, Hh. simpl. rewrite Hvs. simpl.
  destruct (confirm_reply env); simpl; [|auto].
  destruct (revert_reply env); simpl; [|auto].
  destruct (refetchContent_reply env); simpl; auto.
Qed.

Lemma undo_reverts_previous_witness :
  let st := editorShowing (js "A feline sat.") in
  let env := undoEnv sampleHistory true in
  manuscriptId st = Some "m1"%string /\
  reverts (trace_of (handleUndo env st)) = [("m1"%string, "v1"%string)].
Proof.
  intros st env.
  pose proof (undo_reverts_previous env st "m1" sampleHistory
                eq_refl eq_refl eq_refl) as H.
  simpl in H. destruct H as (prev & Hprev & _ & Hrev).
  injection Hprev as <-. split; [reflexivity | exact Hrev].
Defined.

(** The restore button of the history dialog: the current version is
    refused with an alert; another version is reverted to once the user
    confirms. *)
Lemma handleRevert_reverts (env : RevertEnv) (version : VersionInfo)
    (confirmed : bool) (st : State) (mid : string) :
  manuscriptId st = Some mid ->
  truthy (Some mid) = true ->
  reverts (trace_of (VersionHistory.handleRevert (handleRevertToVersion env)
                       version confirmed st)) =
  if is_current version then []
  else if confirmed then [(mid, id version)] else [].
Proof.
  intros Hmid Ht.
  unfold VersionHistory.handleRevert, handleRevertToVersion,
    refetchContent, setManuscriptContent, setShowHistory. unfold_M.
  destruct (is_current version); [done|].
  destruct confirmed; [|done]. rewrite Hmid, Ht. simpl.
  destruct (rv_revert_reply env); [|done].
  destruct (rv_refetchContent_reply env); done.
Qed.

(** A failed apply leaves the editor as it is. *)
Lemma applyEditMutation_onError_run (st : State) :
  applyEditMutation_onError st =
  ([ConsoleError "Failed to apply edit:"], st, Normal tt).
Proof. reflexivity. Qed.

End Undo.

(** ** The diff that the option cards display *)

Section Diff.
Import DiffViewer DiffSpec.

Lemma tokenize_concat (s : jsstring) : concat (tokenize s) = s.
Proof.
  induction s as [|c s IH]; [done|]. simpl.
  destruct (tokenize s) as [|[|d t] ts]; simpl in *.
  - by rewrite <- IH.
  - by rewrite <- IH.
  - destruct (Bool.eqb (isWhiteSpace c) (isWhiteSpace d)); simpl;
      by rewrite <- IH.
Qed.

Lemma lcs_le_l (a b : list jsstring) : (lcs a b <= length a)%nat.
Proof.
  revert b. induction a as [|x a IH]; intros b; [simpl; lia|].
  induction b as [|y b IHb]; [simpl; lia|]. simpl in *.
  destruct (streq x y).
  - specialize (IH b). lia.
  - specialize (IH (y :: b)). lia.
Qed.

Lemma lcs_le_r (a b : list jsstring) : (lcs a b <= length b)%nat.
Proof.
  revert b. induction a as [|x a IH]; intros b; [simpl; lia|].
  induction b as [|y b IHb]; [simpl; lia|]. simpl in *.
  destruct (streq x y).
  - specialize (IH b). lia.
  - specialize (IH (y :: b)). simpl in IH. lia.
Qed.

Lemma computeSimpleDiff_changed (before after : jsstring) :
  before <> after ->
  computeSimpleDiff before after = {| removed := before; added := after |}.
Proof.
  intros H. apply streq_false in H. unfold computeSimpleDiff. by rewrite H.
Qed.

Lemma computeSimpleDiff_same (t : jsstring) :
  computeSimpleDiff t t = {| removed := []; added := t |}.
Proof. unfold computeSimpleDiff. by rewrite streq_refl. Qed.

(** C7, as stated, fails: for "a b" and "a c" the displayed diff
    removes the whole of "a b" and adds the whole of "a c", six word
    tokens, where an alignment on the common tokens changes two. *)
Lemma word_diff_counterexample :
  let d := computeSimpleDiff (js "a b") (js "a c") in
  removed d = js "a b" /\ added d = js "a c" /\
  asHunks (js "a b") (js "a c")
    = [ {| op := op_delete; hunk_text := js "a b" |};
        {| op := op_insert; hunk_text := js "a c" |} ] /\
  tokenize (js "a b") = [js "a"; js " "; js "b"] /\
  tokenize (js "a c") = [js "a"; js " "; js "c"] /\
  changedTokens (asHunks (js "a b") (js "a c")) = 6%nat /\
  minimalEdits (js "a b") (js "a c") = 2%nat /\
  changedTokens (asHunks (js "a b") (js "a c"))
    <> minimalEdits (js "a b") (js "a c").
Proof. repeat split; try reflexivity. vm_compute. lia. Qed.

Lemma asHunks_changed (before after : jsstring) :
  before <> after ->
  asHunks before after = [ {| op := op_delete; hunk_text := before |};
                           {| op := op_insert; hunk_text := after |} ].
Proof.
  intros H. unfold asHunks, hasChanges.
  rewrite (computeSimpleDiff_changed _ _ H).
  apply streq_false in H. by rewrite H.
Qed.

Lemma asHunks_same (t : jsstring) :
  asHunks t t = [ {| op := op_equal; hunk_text := t |} ].
Proof. unfold asHunks, hasChanges. by rewrite streq_refl. Qed.

(** C7, amended.  The displayed diff does not tokenize or align: for
    two different strings it is the whole of [before] as the removed
    part and the whole of [after] as the added part, without any equal
    part.  Counted in word tokens (maximal runs of whitespace and of
    non-whitespace, whose concatenation gives the text back) it changes
    every token of both texts, which is the minimum only when the two
    token sequences have no common subsequence. *)
Theorem whole_text_diff (before after : jsstring) :
  before <> after ->
  let d := computeSimpleDiff before after in
  removed d = before /\ added d = after /\
  asHunks before after = [ {| op := op_delete; hunk_text := before |};
                           {| op := op_insert; hunk_text := after |} ] /\
  concat (tokenize before) = before /\
  concat (tokenize after) = after /\
  changedTokens (asHunks before after)
    = (length (tokenize before) + length (tokenize after))%nat /\
  (minimalEdits before after <= changedTokens (asHunks before after))%nat /\
  (changedTokens (asHunks before after) = minimalEdits before after <->
   lcs (tokenize before) (tokenize after) = 0%nat).
Proof.
  intros Hne d. subst d. rewrite (asHunks_changed _ _ Hne).
  rewrite (computeSimpleDiff_changed _ _ Hne).
  unfold minimalEdits. simpl.
  pose proof (lcs_le_l (tokenize before) (tokenize after)).
  pose proof (lcs_le_r (tokenize before) (tokenize after)).
  repeat split; try done; try apply tokenize_concat; lia.
Qed.

Lemma whole_text_diff_witness :
  js "a b" <> js "x y" /\
  changedTokens (asHunks (js "a b") (js "x y")) = 6%nat /\
  minimalEdits (js "a b") (js "x y") = 4%nat.
Proof.
  assert (js "a b" <> js "x y") as Hne by (vm_compute; congruence).
  destruct (whole_text_diff (js "a b") (js "x y") Hne)
    as (_ & _ & _ & _ & _ & Hc & _ & _).
  split; [exact Hne|]. split; [exact Hc | reflexivity].
Defined.

(** For two equal strings the pair that [computeSimpleDiff] returns has
    an empty removed part; the card then shows "No changes detected"
    and not the pair. *)
Example unchanged_text_diff :
  computeSimpleDiff (js "x") (js "x") = {| removed := []; added := js "x" |} /\
  hasChanges (js "x") (js "x") = false /\
  asHunks (js "x") (js "x") = [ {| op := op_equal; hunk_text := js "x" |} ].
Proof. repeat split. Qed.


End Diff.

(** ** Version history: revert and apply *)

Section VersionHistoryAndApply.
Import Engine.

Lemma appendVersion_ok (s : Store) (mid : nat) (m : Manuscript)
    (c : jsstring) (parent : option nat) :
  manuscripts s !! mid = Some m ->
  exists s' nv,
    appendVersion s mid c parent = Ok (s', nv) /\
    arena s' = arena s ++ [nv] /\
    v_id nv = length (arena s) /\ v_manuscriptId nv = mid /\
    v_content nv = c /\ v_parentVersionId nv = parent /\
    (exists m', manuscripts s' !! mid = Some m' /\
                m_currentVersionId m' = length (arena s)) /\
    (forall other, other <> mid ->
                   manuscripts s' !! other = manuscripts s !! other).
Proof.
  intros Hm. unfold appendVersion. rewrite Hm. eexists _, _.
  split; [reflexivity|]. simpl. repeat split; try done.
  - eexists. split; [apply lookup_insert_eq | done].
  - intros other Hne. by apply lookup_insert_ne.
Qed.

Lemma listVersions_append (s s' : Store) (mid : nat) (nv : Version) :
  arena s' = arena s ++ [nv] -> v_manuscriptId nv = mid ->
  listVersions s' mid = nv :: listVersions s mid.
Proof.
  intros Ha Hm. unfold listVersions. rewrite Ha, filter_app, reverse_app.
  rewrite filter_cons_True by done. done.
Qed.

(** C1.  For a manuscript [mid] and a version [target] that belongs to
    it, [revert] succeeds; afterwards the current version has the
    content of the target, the version list is the new version in
    front of the list as it was (no entry changed or removed), the
    history is one entry longer with its earlier entries' ids, tags and
    times unchanged, and the new version's parent is the version that
    was current. *)
Theorem revert_appends (s : Store) (mid target : nat) (m : Manuscript)
    (tv : Version) :
  manuscripts s !! mid = Some m ->
  arena s !! target = Some tv ->
  v_manuscriptId tv = mid ->
  exists s' nv,
    revert s mid target = Ok (s', nv) /\
    (exists cur, getCurrent s' mid = Ok cur /\ cur = nv /\
                 v_content cur = v_content tv) /\
    listVersions s' mid = nv :: listVersions s mid /\
    (forall i v, arena s !! i = Some v -> arena s' !! i = Some v) /\
    (exists h h', listHistory s mid = Ok h /\ listHistory s' mid = Ok h' /\
                  length h' = S (length h) /\
                  entryKey <$> tail h' = entryKey <$> h) /\
    v_parentVersionId nv = Some (m_currentVersionId m).
Proof.
  intros Hm Htv Hbel.
  destruct (appendVersion_ok s mid m (v_content tv)
              (Some (m_currentVersionId m)) Hm)
    as (s' & nv & Happ & Harena & Hid & Hmid & Hc & Hp & (m' & Hm' & Hcur) & _).
  exists s', nv.
  assert (revert s mid target = Ok (s', nv)) as Hrev.
  { unfold revert, commit. rewrite Hm, Htv.
    rewrite (bool_decide_eq_true_2 _ Hbel).
    rewrite (bool_decide_eq_true_2 _ eq_refl). exact Happ. }
  assert (listVersions s' mid = nv :: listVersions s mid) as Hlv
    by (by apply (listVersions_append s s')).
  split; [exact Hrev|]. split; [|split; [exact Hlv|split; [|split]]].
  - exists nv. split; [|by rewrite Hc].
    unfold getCurrent. rewrite Hm', Hcur, Harena.
    by rewrite list_lookup_middle.
  - intros i v Hi. rewrite Harena. by apply lookup_app_l_Some.
  - unfold listHistory. rewrite Hm, Hm', Hlv. eexists _, _.
    split; [reflexivity|]. split; [reflexivity|].
    rewrite fmap_cons. simpl. split; [by rewrite !length_fmap|].
    rewrite <- !list_fmap_compose. done.
  - exact Hp.
Qed.

Lemma revert_appends_witness :
  (exists m, manuscripts felineStore !! 0%nat = Some m) /\
  (exists tv, arena felineStore !! 0%nat = Some tv /\ v_manuscriptId tv = 0%nat) /\
  getContent felineStore 0 = Ok (js "A feline sat.") /\
  exists s' nv, revert felineStore 0 0 = Ok (s', nv) /\
                getContent s' 0 = Ok (js "A cat sat.") /\
                length (listVersions s' 0) = 3%nat.
Proof.
  assert (exists m, manuscripts felineStore !! 0%nat = Some m) as [m Hm]
    by (eexists; reflexivity).
  assert (exists tv, arena felineStore !! 0%nat = Some tv /\
                     v_manuscriptId tv = 0%nat /\
                     v_content tv = js "A cat sat.") as (tv & Htv & Hb & Hc)
    by (eexists; repeat split; reflexivity).
  destruct (revert_appends felineStore 0 0 m tv Hm Htv Hb)
    as (s' & nv & Hrev & (cur & Hcur & _ & Hcc) & Hlv & _).
  split; [by exists m|]. split; [by exists tv|]. split; [reflexivity|].
  exists s', nv. split; [exact Hrev|]. split.
  - unfold getContent. rewrite Hcur, Hcc, Hc. reflexivity.
  - rewrite Hlv. reflexivity.
Defined.

(** A failed apply never touches the store. *)
Lemma applyEdit_error_keeps_store (st st' : State) (sid oid : nat) (e : error) :
  applyEdit st sid oid = (st', Err e) -> store st' = store st.
Proof.
  unfold applyEdit.
  destruct (sessions st !! sid) as [sess|]; [|by intros [= <- _]].
  destruct (s_status sess); try by intros [= <- _].
  destruct (findOption (s_options sess) oid) as [o|]; [|by intros [= <- _]].
  destruct (getContent (store st) (s_manuscriptId sess)) as [c|e'];
    [|by intros [= <- _]].
  destruct (s_targetRange sess) as [a b].
  destruct (streq (slice c a b) (o_before o)); [|by intros [= <- _]].
  destruct (commit (store st) (s_manuscriptId sess) (s_baseVersionId sess) _)
    as [[s' v]|e']; [done|].
  destruct e'; by intros [= <- _].
Qed.

(** C2.  When the current content on the session's recorded range no
    longer equals the [before] text of the chosen option, [applyEdit]
    fails with [Conflict]; the store is untouched (no version is added,
    the current version is the same) and the session is discarded. *)
Theorem apply_conflict (st : State) (sid oid : nat) (sess : EditSession)
    (o : Option_) (c : jsstring) :
  sessions st !! sid = Some sess ->
  s_status sess = OPTIONS_READY ->
  findOption (s_options sess) oid = Some o ->
  getContent (store st) (s_manuscriptId sess) = Ok c ->
  slice c (s_targetRange sess).1 (s_targetRange sess).2 <> o_before o ->
  exists st',
    applyEdit st sid oid = (st', Err Conflict) /\
    store st' = store st /\
    getCurrent (store st') (s_manuscriptId sess)
      = getCurrent (store st) (s_manuscriptId sess) /\
    listVersions (store st') (s_manuscriptId sess)
      = listVersions (store st) (s_manuscriptId sess) /\
    arena (store st') = arena (store st) /\
    s_status <$> sessions st' !! sid = Some DISCARDED.
Proof.
  intros Hs Hst Ho Hc Hne. unfold applyEdit.
  rewrite Hs, Hst, Ho, Hc. destruct (s_targetRange sess) as [a b]. simpl in Hne.
  apply streq_false in Hne. rewrite Hne. eexists. split; [reflexivity|].
  simpl. repeat split; try done. by rewrite lookup_insert_eq.
Qed.

Lemma apply_conflict_witness :
  getContent (store staleState) 0 = Ok (js "A feline sat.") /\
  slice (js "A feline sat.") 2 5 <> js "cat" /\
  exists st', applyEdit staleState 0 0 = (st', Err Conflict) /\
              getContent (store st') 0 = Ok (js "A feline sat.").
Proof.
  assert (slice (js "A feline sat.") 2 5 <> js "cat") as Hne
    by (vm_compute; congruence).
  destruct (apply_conflict staleState 0 0 catSession
              {| o_optionId := 0; o_label := "A"; o_before := js "cat";
                 o_after := js "feline"; o_diff := []; o_severity := light |}
              (js "A feline sat.") eq_refl eq_refl eq_refl eq_refl Hne)
    as (st' & Happ & Hstore & _).
  split; [reflexivity|]. split; [exact Hne|].
  exists st'. split; [exact Happ|]. rewrite Hstore. reflexivity.
Defined.

(** The end-to-end scenario: "cat" replaced by "feline" in
    "A cat sat." gives "A feline sat." and a history of two. *)
Example apply_cat_feline :
  exists st', applyEdit catState 0 0 = (st', Ok 1%nat) /\
              getContent (store st') 0 = Ok (js "A feline sat.") /\
              length (listVersions (store st') 0) = 2%nat /\
              s_status <$> sessions st' !! 0%nat = Some APPLIED.
Proof. eexists. repeat split; reflexivity. Qed.

(** A revert to a version of another manuscript, or to none, fails. *)
Lemma revert_foreign (s : Store) (mid target : nat) :
  (forall tv, arena s !! target = Some tv -> v_manuscriptId tv <> mid) ->
  revert s mid target = Err NotFound.
Proof.
  intros H. unfold revert.
  destruct (manuscripts s !! mid); [|done].
  destruct (arena s !! target) as [tv|] eqn:Htv; [|done].
  by rewrite (bool_decide_eq_false_2 _ (H tv eq_refl)).
Qed.

(** *** The invariant of the store *)

Lemma wf_empty : wf emptyStore.
Proof. split; intros ? ? H; simpl in H; [by destruct i | by rewrite lookup_empty in H]. Qed.

Lemma wf_appendVersion (s s' : Store) (mid : nat) (c : jsstring)
    (parent : option nat) (nv : Version) :
  wf s -> appendVersion s mid c parent = Ok (s', nv) -> wf s'.
Proof.
  intros [Hv Hm]. unfold appendVersion.
  destruct (manuscripts s !! mid) as [m|] eqn:Hmid; [|done].
  intros [= <- <-]. split; simpl.
  - intros i v Hi. apply lookup_app_Some in Hi as [Hi|[Hlen Hi]].
    + destruct (Hv i v Hi) as (H1 & H2 & H3). split; [done|]. split; [lia|].
      destruct (decide (v_manuscriptId v = mid)) as [->|Hne].
      * rewrite lookup_insert_eq. by eexists.
      * by rewrite lookup_insert_ne.
    + destruct (i - length (arena s))%nat eqn:Hd; [|by destruct n].
      simpl in Hi. injection Hi as <-. simpl.
      split; [lia|]. split; [lia|]. rewrite lookup_insert_eq. by eexists.
  - intros mid' m' Hm'.
    destruct (decide (mid = mid')) as [<-|Hne].
    + rewrite lookup_insert_eq in Hm'. injection Hm' as <-. simpl.
      destruct (Hm mid m Hmid) as (H1 & H2 & _).
      split; [done|]. split; [done|].
      eexists. split; [apply list_lookup_middle; done | done].
    + rewrite lookup_insert_ne in Hm' by done.
      destruct (Hm mid' m' Hm') as (H1 & H2 & v & H3 & H4).
      split; [done|]. split; [done|]. exists v. split; [|done].
      by apply lookup_app_l_Some.
Qed.

Lemma wf_createManuscript (s : Store) (title : string)
    (author : option string) (c : jsstring) :
  wf s -> wf (createManuscript s title author c).1.
Proof.
  intros [Hv Hm]. split; simpl.
  - intros i v Hi. apply lookup_app_Some in Hi as [Hi|[Hlen Hi]].
    + destruct (Hv i v Hi) as (H1 & H2 & m & H3). split; [done|]. split; [lia|].
      destruct (Hm _ _ H3) as (_ & Hlt & _).
      rewrite lookup_insert_ne by lia. by eexists.
    + destruct (i - length (arena s))%nat eqn:Hd; [|by destruct n].
      simpl in Hi. injection Hi as <-. simpl.
      split; [lia|]. split; [lia|]. rewrite lookup_insert_eq. by eexists.
  - intros mid' m' Hm'.
    destruct (decide (nextManuscriptId s = mid')) as [<-|Hne].
    + rewrite lookup_insert_eq in Hm'. injection Hm' as <-. simpl.
      split; [done|]. split; [lia|].
      eexists. split; [apply list_lookup_middle; done | done].
    + rewrite lookup_insert_ne in Hm' by done.
      destruct (Hm mid' m' Hm') as (H1 & H2 & v & H3 & H4).
      split; [done|]. split; [lia|]. exists v. split; [|done].
      by apply lookup_app_l_Some.
Qed.

Lemma wf_commit (s s' : Store) (mid base : nat) (c : jsstring) (nv : Version) :
  wf s -> commit s mid base c = Ok (s', nv) -> wf s'.
Proof.
  intros Hwf. unfold commit.
  destruct (manuscripts s !! mid); [|done].
  destruct (bool_decide _); [|done]. by apply wf_appendVersion.
Qed.

Lemma wf_revert (s s' : Store) (mid target : nat) (nv : Version) :
  wf s -> revert s mid target = Ok (s', nv) -> wf s'.
Proof.
  intros Hwf. unfold revert.
  destruct (manuscripts s !! mid); [|done].
  destruct (arena s !! target); [|done].
  destruct (bool_decide _); [|done]. by apply wf_commit.
Qed.

(** In a well-formed store every manuscript has a current version, and
    it is one of its own. *)
Lemma wf_getCurrent (s : Store) (mid : nat) (m : Manuscript) :
  wf s -> manuscripts s !! mid = Some m ->
  exists v, getCurrent s mid = Ok v /\ v_manuscriptId v = mid /\
            v_id v = m_currentVersionId m.
Proof.
  intros [Hv Hm] Hmid. destruct (Hm mid m Hmid) as (_ & _ & v & Hcur & Hbel).
  exists v. unfold getCurrent. rewrite Hmid, Hcur.
  destruct (Hv _ _ Hcur) as (Hid & _). done.
Qed.

(** After a revert in a well-formed store exactly the new entry of the
    history is flagged current. *)
Lemma revert_history_flags (s s' : Store) (mid target : nat) (nv : Version)
    (h' : list HistoryEntry) :
  wf s -> revert s mid target = Ok (s', nv) ->
  listHistory s' mid = Ok h' ->
  h_isCurrent <$> h' = true :: (const false <$> listVersions s mid).
Proof.
  intros Hwf Hrev Hh. pose proof Hwf as [Hv Hm]. unfold revert, commit in Hrev.
  destruct (manuscripts s !! mid) as [m|] eqn:Hmid; [|done].
  destruct (arena s !! target) as [tv|]; [|done].
  destruct (bool_decide (v_manuscriptId tv = mid)); [|done].
  destruct (bool_decide (m_currentVersionId m = m_currentVersionId m)); [|done].
  destruct (appendVersion_ok s mid m (v_content tv) (Some (m_currentVersionId m)) Hmid)
    as (s1 & nv1 & Happ & Harena & Hid & Hbel & _ & _ & (m' & Hm' & Hcur) & _).
  rewrite Happ in Hrev. injection Hrev as <- <-.
  unfold listHistory in Hh. rewrite Hm' in Hh. injection Hh as <-.
  rewrite (listVersions_append s s1 mid nv1 Harena Hbel).
  rewrite !fmap_cons, <- list_fmap_compose. simpl. f_equal.
  - apply bool_decide_eq_true_2. congruence.
  - apply list_fmap_ext. intros i v Hi. simpl.
    apply bool_decide_eq_false_2. rewrite Hcur.
    unfold listVersions in Hi. apply list_elem_of_lookup_2 in Hi.
    apply elem_of_reverse, list_elem_of_filter in Hi as [_ Hi].
    apply list_elem_of_lookup in Hi as [j Hj].
    destruct (Hv j v Hj) as (-> & _). apply lookup_lt_Some in Hj. lia.
Qed.

End VersionHistoryAndApply.

(** ** Rendering of the content *)

Section Rendering.

Lemma splitLines_nonempty (s : jsstring) : splitLines s <> [].
Proof.
  destruct s as [|c s]; simpl; [done|].
  destruct (c =? 10)%N; [done|]. by destruct (splitLines s).
Qed.

Lemma joinLines_cons (line : jsstring) (rest : list jsstring) :
  rest <> [] -> joinLines (line :: rest) = line ++ 10%N :: joinLines rest.
Proof. by destruct rest. Qed.

Lemma joinLines_splitLines (s : jsstring) : joinLines (splitLines s) = s.
Proof.
  induction s as [|c s IH]; [done|]. simpl.
  destruct (c =? 10)%N eqn:Hc.
  - apply N.eqb_eq in Hc. subst c.
    rewrite joinLines_cons by apply splitLines_nonempty. simpl. by rewrite IH.
  - pose proof (splitLines_nonempty s) as Hne.
    destruct (splitLines s) as [|line [|l2 rest]]; [done| |].
    + simpl in *. by rewrite IH.
    + simpl in *. by rewrite <- IH.
Qed.

(** The lengths of the lines and the line breaks between them add up
    to the length of the text. *)
Lemma splitLines_length (s : jsstring) :
  jslength s =
  jslength (concat (splitLines s)) + Z.of_nat (length (splitLines s)) - 1.
Proof.
  unfold jslength. induction s as [|c s IH]; [done|]. simpl.
  destruct (c =? 10)%N.
  - simpl. lia.
  - pose proof (splitLines_nonempty s) as Hne.
    destruct (splitLines s) as [|line rest]; [done|]. simpl in *. lia.
Qed.

Lemma startsWith_split (line mark : jsstring) :
  startsWith line mark = true ->
  line = mark ++ substringFrom line (jslength mark).
Proof.
  intros H. apply isPrefix_spec in H.
  assert (length mark <= length line)%nat as Hlen.
  { rewrite <- H at 1. rewrite length_take. lia. }
  unfold substringFrom. rewrite substring_in_range;
    unfold jslength in *; try lia.
  rewrite Nat2Z.id.
  replace (Z.to_nat (Z.of_nat (length line) - Z.of_nat (length mark)))
    with (length (drop (length mark) line)) by (rewrite length_drop; lia).
  rewrite firstn_all. rewrite <- (take_drop (length mark) line) at 1.
  by rewrite H.
Qed.

Lemma formatLine_renders (line : jsstring) : renders line (formatLine line).
Proof.
  unfold formatLine.
  destruct (startsWith line (js "# ")) eqn:H1.
  { apply (startsWith_split line (js "# ") H1). }
  destruct (startsWith line (js "## ")) eqn:H2.
  { apply (startsWith_split line (js "## ") H2). }
  destruct (startsWith line (js "### ")) eqn:H3.
  { apply (startsWith_split line (js "### ") H3). }
  destruct (streq (trim line) []) eqn:Ht; simpl.
  - by apply streq_spec.
  - split; [done|]. by apply streq_false.
Qed.

Lemma renders_length (line : jsstring) (el : Element) :
  renders line el -> (length (elementText el) <= length line)%nat.
Proof.
  destruct el; unfold renders, elementText;
    try (intros ->; rewrite length_app; lia).
  - intros _. simpl. lia.
  - intros [-> _]. lia.
Qed.

(** X1.  [formatContent] makes one element per line of the text, in
    order: a heading holds its line without the mark "# ", "## " or
    "### ", a paragraph holds its line as it is, and a line break
    stands for a line of whitespace only; joined with line feeds the
    lines are the text again. *)
Theorem formatContent_lines (text : jsstring) :
  joinLines (splitLines text) = text /\
  Forall2 renders (splitLines text) (formatContent text).
Proof.
  split; [apply joinLines_splitLines|].
  unfold formatContent. induction (splitLines text) as [|line lines IH].
  - constructor.
  - rewrite fmap_cons. constructor; [apply formatLine_renders | exact IH].
Qed.

Lemma renderedText_length (lines : list jsstring) :
  (length (renderedText (formatLine <$> lines)) <= length (concat lines))%nat.
Proof.
  unfold renderedText. induction lines as [|line lines IH]; [done|].
  rewrite !fmap_cons. simpl. rewrite !length_app.
  pose proof (renders_length line _ (formatLine_renders line)). lia.
Qed.

(** X2.  The rendered text is shorter than the content by at least one
    code unit per line break: an offset in the rendered text is never
    beyond the offset of the same place in the content. *)
Theorem renderedText_shorter (text : jsstring) :
  jslength (renderedText (formatContent text))
  + Z.of_nat (length (formatContent text)) - 1 <= jslength text.
Proof.
  rewrite (splitLines_length text). unfold formatContent.
  rewrite length_fmap.
  pose proof (renderedText_length (splitLines text)).
  unfold jslength. lia.
Qed.

(** X3.  A text of one line that is not blank and does not start with a
    heading mark is rendered as itself, so offsets in the rendered text
    are offsets in the content. *)
Theorem renderedText_plain (text : jsstring) :
  (forall c, In c text -> c <> 10%N) ->
  trim text <> [] ->
  startsWith text (js "# ") = false ->
  startsWith text (js "## ") = false ->
  startsWith text (js "### ") = false ->
  formatContent text = [Paragraph text] /\
  renderedText (formatContent text) = text.
Proof.
  intros Hnl Ht H1 H2 H3.
  assert (splitLines text = [text]) as Hs.
  { clear Ht H1 H2 H3. induction text as [|c s IH]; [done|]. simpl.
    destruct (c =? 10)%N eqn:Hc.
    - apply N.eqb_eq in Hc. exfalso. apply (Hnl c); [by left | done].
    - rewrite IH; [done|]. intros d Hd. apply Hnl. by right. }
  unfold formatContent. rewrite Hs. simpl. unfold formatLine.
  rewrite H1, H2, H3. apply streq_false in Ht. rewrite Ht.
  unfold renderedText. simpl. by rewrite app_nil_r.
Qed.

Lemma renderedText_plain_witness :
  (forall c, In c (js "Hello world") -> c <> 10%N) /\
  formatContent (js "Hello world") = [Paragraph (js "Hello world")] /\
  renderedText (formatContent (js "Hello world")) = js "Hello world".
Proof.
  assert (forall c, In c (js "Hello world") -> c <> 10%N) as Hnl.
  { intros c Hc. vm_compute in Hc.
    repeat (destruct Hc as [<-|Hc]; [discriminate|]). done. }
  split; [exact Hnl|].
  apply (renderedText_plain (js "Hello world") Hnl);
    [vm_compute; congruence | reflexivity | reflexivity | reflexivity].
Defined.

(** A heading and a line: two elements, and the rendered text is seven
    code units shorter than the content. *)
Example formatContent_headed :
  formatContent headedContent = [Heading1 (js "Title"); Paragraph (js "Hello")] /\
  renderedText (formatContent headedContent) = js "TitleHello".
Proof. split; reflexivity. Qed.

(** The empty text is one blank line. *)
Example formatContent_empty : formatContent [] = [LineBreak].
Proof. reflexivity. Qed.

End Rendering.

(** ** Previews and relative dates *)

Section Labels.

Lemma substring_prefix (s : jsstring) (n : Z) :
  0 <= n -> n <= jslength s ->
  substring s 0 n = take (Z.to_nat n) s /\ jslength (substring s 0 n) = n.
Proof.
  intros H0 Hn. rewrite substring_in_range by lia.
  replace (n - 0) with n by lia. change (Z.to_nat 0) with 0%nat.
  rewrite drop_0. split; [done|].
  unfold jslength in *. rewrite length_take. lia.
Qed.

Lemma ellipsis_spec (s : jsstring) (n : Z) :
  0 <= n ->
  let shown := if n <? jslength s then substring s 0 n ++ js "..." else s in
  (jslength s <= n -> shown = s) /\
  (n < jslength s -> shown = take (Z.to_nat n) s ++ js "...") /\
  jslength shown <= n + 3.
Proof.
  intros Hn. simpl. destruct (n <? jslength s) eqn:Hlt.
  - apply Z.ltb_lt in Hlt.
    destruct (substring_prefix s n Hn ltac:(lia)) as [E L].
    split; [lia|]. split; [by rewrite E|].
    unfold jslength in *. rewrite length_app. simpl. lia.
  - apply Z.ltb_ge in Hlt. split; [done|]. split; lia.
Qed.

(** X4.  The preview of an option shows a text of up to 100 code units
    in full and a longer one as its first 100 code units followed by
    "..."; the preview of the selected text does the same at 200.  A
    preview is never longer than the limit plus three. *)
Theorem previews_truncate (after : jsstring) (selection : Selection) :
  (jslength after <= 100 -> diffPreview after = after) /\
  (100 < jslength after ->
   diffPreview after = take 100 after ++ js "...") /\
  jslength (diffPreview after) <= 103 /\
  (jslength (text selection) <= 200 ->
   selectedTextPreview selection = text selection) /\
  (200 < jslength (text selection) ->
   selectedTextPreview selection = take 200 (text selection) ++ js "...") /\
  jslength (selectedTextPreview selection) <= 203.
Proof.
  destruct (ellipsis_spec after 100 ltac:(lia)) as (A1 & A2 & A3).
  destruct (ellipsis_spec (text selection) 200 ltac:(lia)) as (S1 & S2 & S3).
  unfold diffPreview, selectedTextPreview. repeat split; try done.
Qed.

Lemma previews_truncate_witness :
  jslength (js "feline") <= 100 /\ diffPreview (js "feline") = js "feline".
Proof.
  assert (jslength (js "feline") <= 100) as H by (vm_compute; congruence).
  split; [exact H|].
  exact (proj1 (previews_truncate (js "feline")
                  {| start := 0; end_ := 0; text := [] |}) H).
Defined.

Lemma div_range (d q n : Z) :
  0 < q -> q * n <= d < q * (n + 1) -> d / q = n.
Proof. intros Hq Hd. symmetry. apply Z.div_unique with (r := d - q * n); lia. Qed.

(** X5.  [formatDate] labels a date by its age in milliseconds: under a
    minute (or in the future) "Just now"; then whole minutes up to 59,
    whole hours up to 23, whole days up to 6, with "s" from two on; from
    seven days on, and for a date that does not parse, the absolute
    date. *)
Theorem formatDate_ranges (diffMs : Z) (absolute : string) :
  (diffMs < 60000 -> formatDate (Some diffMs) absolute = "Just now") /\
  (60000 <= diffMs < 120000 ->
   formatDate (Some diffMs) absolute = "1 minute ago") /\
  (120000 <= diffMs < 3600000 ->
   formatDate (Some diffMs) absolute = pretty.pretty (diffMs / 60000) +:+ " minutes ago" /\
   2 <= diffMs / 60000 <= 59) /\
  (3600000 <= diffMs < 7200000 ->
   formatDate (Some diffMs) absolute = "1 hour ago") /\
  (7200000 <= diffMs < 86400000 ->
   formatDate (Some diffMs) absolute = pretty.pretty (diffMs / 3600000) +:+ " hours ago" /\
   2 <= diffMs / 3600000 <= 23) /\
  (86400000 <= diffMs < 172800000 ->
   formatDate (Some diffMs) absolute = "1 day ago") /\
  (172800000 <= diffMs < 604800000 ->
   formatDate (Some diffMs) absolute = pretty.pretty (diffMs / 86400000) +:+ " days ago" /\
   2 <= diffMs / 86400000 <= 6) /\
  (604800000 <= diffMs -> formatDate (Some diffMs) absolute = absolute) /\
  formatDate None absolute = absolute.
Proof.
  assert (forall q a b, 0 < q -> q * a <= diffMs -> diffMs < q * b ->
                        a <= diffMs / q < b) as Hdiv.
  { intros q a b Hq Ha Hb. split.
    - apply Z.div_le_lower_bound; lia.
    - apply Z.div_lt_upper_bound; lia. }
  unfold formatDate.
  split; [intros Hr|split; [intros Hr|split; [intros Hr; split|split;
    [intros Hr|split; [intros Hr; split|split; [intros Hr|split;
      [intros Hr; split|split; [intros Hr|]]]]]]]].
  - assert (diffMs / 60000 < 1) by (apply Z.div_lt_upper_bound; lia).
    by replace (diffMs / 60000 <? 1) with true by (symmetry; lia).
  - rewrite (div_range diffMs 60000 1) by lia. reflexivity.
  - pose proof (Hdiv 60000 2 60 ltac:(lia) ltac:(lia) ltac:(lia)).
    replace (diffMs / 60000 <? 1) with false by (symmetry; lia).
    replace (diffMs / 60000 <? 60) with true by (symmetry; lia).
    replace (1 <? diffMs / 60000) with true by (symmetry; lia). reflexivity.
  - pose proof (Hdiv 60000 2 60 ltac:(lia) ltac:(lia) ltac:(lia)). lia.
  - pose proof (Hdiv 60000 60 120 ltac:(lia) ltac:(lia) ltac:(lia)).
    replace (diffMs / 60000 <? 1) with false by (symmetry; lia).
    replace (diffMs / 60000 <? 60) with false by (symmetry; lia).
    rewrite (div_range diffMs 3600000 1) by lia. reflexivity.
  - pose proof (Hdiv 60000 120 1440 ltac:(lia) ltac:(lia) ltac:(lia)).
    pose proof (Hdiv 3600000 2 24 ltac:(lia) ltac:(lia) ltac:(lia)).
    replace (diffMs / 60000 <? 1) with false by (symmetry; lia).
    replace (diffMs / 60000 <? 60) with false by (symmetry; lia).
    replace (diffMs / 3600000 <? 24) with true by (symmetry; lia).
    replace (1 <? diffMs / 3600000) with true by (symmetry; lia). reflexivity.
  - pose proof (Hdiv 3600000 2 24 ltac:(lia) ltac:(lia) ltac:(lia)). lia.
  - pose proof (Hdiv 60000 1440 2880 ltac:(lia) ltac:(lia) ltac:(lia)).
    pose proof (Hdiv 3600000 24 48 ltac:(lia) ltac:(lia) ltac:(lia)).
    replace (diffMs / 60000 <? 1) with false by (symmetry; lia).
    replace (diffMs / 60000 <? 60) with false by (symmetry; lia).
    replace (diffMs / 3600000 <? 24) with false by (symmetry; lia).
    rewrite (div_range diffMs 86400000 1) by lia. reflexivity.
  - pose proof (Hdiv 60000 2880 10080 ltac:(lia) ltac:(lia) ltac:(lia)).
    pose proof (Hdiv 3600000 48 168 ltac:(lia) ltac:(lia) ltac:(lia)).
    pose proof (Hdiv 86400000 2 7 ltac:(lia) ltac:(lia) ltac:(lia)).
    replace (diffMs / 60000 <? 1) with false by (symmetry; lia).
    replace (diffMs / 60000 <? 60) with false by (symmetry; lia).
    replace (diffMs / 3600000 <? 24) with false by (symmetry; lia).
    replace (diffMs / 86400000 <? 7) with true by (symmetry; lia).
    replace (1 <? diffMs / 86400000) with true by (symmetry; lia). reflexivity.
  - pose proof (Hdiv 86400000 2 7 ltac:(lia) ltac:(lia) ltac:(lia)). lia.
  - assert (10080 <= diffMs / 60000) by (apply Z.div_le_lower_bound; lia).
    assert (168 <= diffMs / 3600000) by (apply Z.div_le_lower_bound; lia).
    assert (7 <= diffMs / 86400000) by (apply Z.div_le_lower_bound; lia).
    replace (diffMs / 60000 <? 1) with false by (symmetry; lia).
    replace (diffMs / 60000 <? 60) with false by (symmetry; lia).
    replace (diffMs / 3600000 <? 24) with false by (symmetry; lia).
    replace (diffMs / 86400000 <? 7) with false by (symmetry; lia). reflexivity.
  - reflexivity.
Qed.

Lemma formatDate_ranges_witness :
  120000 <= 300000 < 3600000 /\
  formatDate (Some 300000) "10/5/2025 1:39:07 PM" = "5 minutes ago".
Proof.
  assert (120000 <= 300000 < 3600000) as H by lia.
  split; [exact H|].
  destruct (formatDate_ranges 300000 "10/5/2025 1:39:07 PM")
    as (_ & _ & Hm & _).
  destruct (Hm H) as [-> _]. reflexivity.
Defined.

End Labels.

(** ** More on the viewers and the selection handler *)

Section ViewerMore.
Import BookEditor.

(** X6.  At one mouse-up the viewer calls [onTextSelection] at most
    once, with an end that is the start plus the length of the text.
    The text is either the selection as it is, at the offset read from
    the DOM, which then lies within the content; or the trimmed
    selection at its first occurrence in the content, when the offset
    could not be read or lies outside.  Nothing is reported for a
    selection of whitespace only. *)
Theorem reported_shape (content : jsstring) (dom : Dom) :
  reported content dom = [] \/
  exists ws a t,
    windowSelection dom = Some ws /\
    trim (range_toString ws) <> [] /\
    reported content dom = [(a, a + jslength t, t)] /\
    ((t = range_toString ws /\
      textBeforeSelection_length ws = Normal a /\
      0 <= a /\ a + jslength t <= jslength content /\ 0 < jslength t) \/
     (t = trim (range_toString ws) /\
      offsetInBounds content ws = false /\
      a = indexOf content t /\
      occurs_at content t a /\
      forall j, occurs_at content t j -> a <= j)).
Proof.
  unfold reported, ManuscriptViewer.handleMouseUp, spy, offsetInBounds. unfold_M.
  destruct (negb (contentRef_current dom)); [by left|].
  destruct (windowSelection dom) as [ws|]; [|by left].
  destruct (rangeCount ws =? 0)%nat; [by left|].
  destruct (jslength (trim (range_toString ws)) =? 0) eqn:Hnz; [by left|].
  assert (trim (range_toString ws) <> []) as Htrim.
  { intros E. rewrite E in Hnz. done. }
  assert (forall k, (indexOf content (trim (range_toString ws)) =? -1) = false ->
            k = indexOf content (trim (range_toString ws)) ->
            occurs_at content (trim (range_toString ws)) k /\
            forall j, occurs_at content (trim (range_toString ws)) j -> k <= j)
    as Hfound.
  { intros k Hk ->. apply indexOf_found. by apply Z.eqb_neq. }
  destruct (textBeforeSelection_length ws) as [a|err] eqn:Hoff.
  - destruct ((0 <=? a) && (a + jslength (range_toString ws) <=? jslength content)
              && (a <? a + jslength (range_toString ws))) eqn:Hb.
    + simpl. right. exists ws, a, (range_toString ws).
      repeat (apply andb_prop in Hb as [Hb ?]).
      split; [done|]. split; [done|]. split; [done|]. left.
      repeat split; try done; lia.
    + destruct (indexOf content (trim (range_toString ws)) =? -1) eqn:Hk;
        simpl; [by left|].
      right. exists ws, (indexOf content (trim (range_toString ws))),
               (trim (range_toString ws)).
      destruct (Hfound _ eq_refl eq_refl) as [Ho Hm].
      split; [done|]. split; [done|]. split; [done|]. right.
      split; [done|]. split; [by rewrite Hoff|]. done.
  - destruct (indexOf content (trim (range_toString ws)) =? -1) eqn:Hk;
      simpl; [by left|].
    right. exists ws, (indexOf content (trim (range_toString ws))),
             (trim (range_toString ws)).
    destruct (Hfound _ eq_refl eq_refl) as [Ho Hm].
    split; [done|]. split; [done|]. split; [done|]. right.
    split; [done|]. split; [by rewrite Hoff|]. done.
Qed.

(** X7.  With the search-only viewer every reported selection is the
    first occurrence of the trimmed text, is valid for the content and
    is stored by the editor; the editor's mismatch warning never
    appears. *)
Theorem simple_viewer_always_stored (st : State) (mc : ManuscriptContent)
    (dom : Dom) (a b : Z) (t : jsstring) :
  manuscriptContent st = Some mc ->
  truthy (manuscriptId st) = true ->
  In (a, b, t) (reported_simple (content mc) dom) ->
  validSelection (content mc) {| start := a; end_ := b; text := t |} /\
  (forall j, occurs_at (content mc) t j -> a <= j) /\
  viewer_mouseUp_simple dom st =
    ([SetSelection (Some {| start := a; end_ := b; text := t |});
      SetIsSelecting false],
     accepted st {| start := a; end_ := b; text := t |}, Normal tt).
Proof.
  intros Hmc Hid.
  unfold reported_simple, viewer_mouseUp_simple,
    ManuscriptViewerSimple.handleMouseUp, spy. unfold_M. rewrite Hmc, Hid. simpl.
  destruct (negb (contentRef_current dom)); [done|].
  destruct (windowSelection dom) as [ws|]; [|done].
  destruct (rangeCount ws =? 0)%nat; [done|].
  destruct (jslength (trim (range_toString ws)) =? 0) eqn:Hnz; [done|].
  assert (trim (range_toString ws) <> []) as Htrim.
  { intros E. rewrite E in Hnz. done. }
  destruct (indexOf (content mc) (trim (range_toString ws)) =? -1) eqn:Hk;
    simpl; [done|].
  intros [[= <- <- <-]|[]].
  assert (exists j, occurs_at (content mc) (trim (range_toString ws)) j) as Hocc.
  { eexists. apply indexOf_found. by apply Z.eqb_neq. }
  pose proof (first_occurrence_valid _ _ Htrim Hocc) as Hv.
  split; [exact Hv|]. split.
  - apply indexOf_found. by apply Z.eqb_neq.
  - pose proof (handleTextSelection_valid st mc _ Hmc Hv) as Hrun.
    simpl in Hrun. rewrite Hrun. done.
Qed.

Lemma simple_viewer_always_stored_witness :
  let st := editorShowing headedContent in
  let dom := mouseUpAt (js " Hello ") (Normal 5) in
  In (8, 13, js "Hello") (reported_simple headedContent dom) /\
  selection (state_of (viewer_mouseUp_simple dom st))
    = Some {| start := 8; end_ := 13; text := js "Hello" |}.
Proof.
  intros st dom.
  assert (In (8, 13, js "Hello") (reported_simple headedContent dom)) as Hin
    by (vm_compute; tauto).
  destruct (simple_viewer_always_stored st {| content := headedContent |} dom
              8 13 (js "Hello") eq_refl eq_refl Hin) as (_ & _ & Hrun).
  split; [exact Hin|]. rewrite Hrun. reflexivity.
Defined.

(** X8.  What [handleTextSelection] guarantees on its own, for any
    caller: it either leaves the state as it is, or stores the triple
    and discards the session; it stores only if the start lies within
    the content and the text is exactly the content from the start to
    the end, the end cut at the length of the content. *)
Theorem handleTextSelection_guarantee (a b : Z) (t : jsstring) (st : State) :
  completion_of (handleTextSelection a b t st) = Normal tt /\
  ((state_of (handleTextSelection a b t st) = st /\
    stored (trace_of (handleTextSelection a b t st)) = []) \/
   (exists mc,
      manuscriptContent st = Some mc /\
      0 <= a < jslength (content mc) /\ a < b /\
      t = substring (content mc) a b /\
      t = take (Z.to_nat (Z.min b (jslength (content mc)) - a))
               (drop (Z.to_nat a) (content mc)) /\
      state_of (handleTextSelection a b t st)
        = accepted st {| start := a; end_ := b; text := t |})).
Proof.
  rewrite run_handleTextSelection.
  destruct (manuscriptContent st) as [mc|]; [|split; [done|by left]].
  destruct ((0 <=? a) && (a <? b) && (0 <? jslength t)
            && negb (streq (content mc) [])) eqn:Hg; [|split; [done|by left]].
  destruct (streq (substring (content mc) a b) t) eqn:Hs;
    [|split; [done|by left]].
  split; [done|]. right. exists mc. apply streq_spec in Hs.
  repeat (apply andb_prop in Hg as [Hg ?]).
  assert (0 <= a) as Ha by lia. assert (a < b) as Hab by lia.
  pose proof (substring_length (content mc) a b Ha ltac:(lia)) as Hlen.
  rewrite Hs in Hlen.
  assert (a < jslength (content mc)) as Hlt by lia.
  split; [done|]. split; [lia|]. split; [done|]. split; [done|]. split; [|done].
  rewrite <- Hs at 1. unfold substring.
  replace (Z.min (Z.max a 0) (jslength (content mc))) with a by lia.
  replace (Z.max b 0) with b by lia.
  replace (Z.min a (Z.min b (jslength (content mc)))) with a by lia.
  replace (Z.max a (Z.min b (jslength (content mc))))
    with (Z.min b (jslength (content mc))) by lia.
  done.
Qed.

End ViewerMore.

(** ** More on the editor's handlers *)

Section TrimFacts.

Lemma trimStart_app_keep (l : jsstring) (c : N) :
  isWhiteSpace c = false -> trimStart (l ++ [c]) = trimStart l ++ [c].
Proof.
  intros Hc. induction l as [|x l IH]; simpl.
  - by rewrite Hc.
  - destruct (isWhiteSpace x); [exact IH | done].
Qed.

Lemma trimStart_fixed (s : jsstring) :
  match s with [] => True | c :: _ => isWhiteSpace c = false end ->
  trimStart s = s.
Proof. destruct s as [|c s]; simpl; [done|]. by intros ->. Qed.

Lemma trimStart_head (s : jsstring) :
  match trimStart s with [] => True | c :: _ => isWhiteSpace c = false end.
Proof.
  induction s as [|c s IH]; simpl; [done|].
  destruct (isWhiteSpace c) eqn:Hc; [exact IH | done].
Qed.

Lemma trimStart_idempotent (s : jsstring) : trimStart (trimStart s) = trimStart s.
Proof. apply trimStart_fixed, trimStart_head. Qed.

Lemma trimEnd_cons (c : N) (s : jsstring) :
  isWhiteSpace c = false -> trimEnd (c :: s) = c :: trimEnd s.
Proof.
  intros Hc. unfold trimEnd. rewrite reverse_cons.
  rewrite trimStart_app_keep by done.
  by rewrite reverse_app.
Qed.

(** Trimming a trimmed string changes nothing. *)
Lemma trim_idempotent (s : jsstring) : trim (trim s) = trim s.
Proof.
  unfold trim.
  assert (trimStart (trimEnd (trimStart s)) = trimEnd (trimStart s)) as ->.
  { pose proof (trimStart_head s) as Hh.
    destruct (trimStart s) as [|c u]; [done|].
    rewrite trimEnd_cons by done. simpl. by rewrite Hh. }
  unfold trimEnd. rewrite reverse_involutive. by rewrite trimStart_idempotent.
Qed.

End TrimFacts.

Arguments truthy : simpl never.

Section EditorMore.
Import BookEditor.

Lemma In_suggests (t : list effect) (request : EditSuggestRequest) :
  In request (suggests t) <-> In (ApiSuggest request) t.
Proof.
  induction t as [|e t IH]; simpl; [done|].
  unfold suggests in *. simpl.
  destruct e; simpl; rewrite IH; split; intros H;
    try (by right); try (destruct H as [H|H]; [done|exact H]).
  - destruct H as [<-|H]; [by left | by right].
  - destruct H as [[= <-]|H]; [by left | by right].
Qed.

Lemma suggests_app t1 t2 : suggests (t1 ++ t2) = suggests t1 ++ suggests t2.
Proof. apply omap_app. Qed.

(** What a click on the suggestion button sends. *)
Lemma dispatch_suggest (instruction : jsstring) (st : State) :
  let r := dispatch (SuggestClicked instruction) st in
  match selection st, manuscriptId st with
  | Some sel, Some mid =>
    if negb (streq (trim instruction) []) && negb (isLoading st)
       && truthy (Some mid)
    then suggests (trace_of r) =
           [ {| manuscript_id := mid; instruction := trim instruction;
                target_range := (start sel, end_ sel);
                k := 6; num_options := 3 |} ] /\
         isLoading (state_of r) = true
    else r = ([], st, Normal tt)
  | _, _ => r = ([], st, Normal tt)
  end.
Proof.
  simpl. unfold EditConsole.handleSuggest, handleSuggestEdits, setIsLoading.
  unfold_M.
  destruct (selection st) as [sel|] eqn:Hsel, (manuscriptId st) as [mid|] eqn:Hmid;
    destruct (streq (trim instruction) []); simpl; try done;
    destruct (isLoading st); simpl; try done;
    rewrite ?Hsel, ?Hmid; try done.
  destruct (truthy (Some mid)); done.
Qed.

(** X9.  A suggestion request is sent only when there is a selection
    and a manuscript id, the instruction is not blank and no request is
    pending.  It carries the instruction without surrounding
    whitespace, the range of the selection, [k = 6] and three options;
    it is the only request of that click, and the editor is loading
    afterwards. *)
Theorem suggest_request (typed : jsstring) (st : State)
    (request : EditSuggestRequest) :
  In (ApiSuggest request) (trace_of (dispatch (SuggestClicked typed) st)) ->
  isLoading st = false /\
  instruction request = trim typed /\
  trim typed <> [] /\
  trim (instruction request) = instruction request /\
  (exists sel, selection st = Some sel /\
               target_range request = (start sel, end_ sel)) /\
  manuscriptId st = Some (manuscript_id request) /\
  manuscript_id request <> ""%string /\
  k request = 6 /\ num_options request = 3 /\
  suggests (trace_of (dispatch (SuggestClicked typed) st)) = [request] /\
  isLoading (state_of (dispatch (SuggestClicked typed) st)) = true.
Proof.
  intros Hin. apply In_suggests in Hin.
  pose proof (dispatch_suggest typed st) as H. cbv zeta in H.
  remember (dispatch (SuggestClicked typed) st) as r eqn:Hr. clear Hr.
  destruct (selection st) as [sel|]; [|by rewrite H in Hin].
  destruct (manuscriptId st) as [mid|] eqn:Hmid; [|by rewrite H in Hin].
  destruct (negb (streq (trim typed) [])) eqn:Ht; simpl in H;
    [|by rewrite H in Hin].
  destruct (isLoading st) eqn:Hl; simpl in H; [by rewrite H in Hin|].
  destruct (truthy (Some mid)) eqn:Hm; [|by rewrite H in Hin].
  destruct H as [Hs Hload]. rewrite Hs in Hin.
  destruct Hin as [<-|[]]. simpl.
  apply negb_true_iff in Ht. apply streq_false in Ht.
  unfold truthy in Hm. apply negb_true_iff, String.eqb_neq in Hm.
  repeat split; try done.
  - apply trim_idempotent.
  - by exists sel.
Qed.

Lemma suggest_request_witness :
  let request := {| manuscript_id := "m1"; instruction := js "tighten";
                    target_range := (2, 5); k := 6; num_options := 3 |} in
  In (ApiSuggest request)
     (trace_of (dispatch (SuggestClicked (js "  tighten ")) editorSelected)) /\
  trim (instruction request) = instruction request.
Proof.
  intros request.
  assert (In (ApiSuggest request)
            (trace_of (dispatch (SuggestClicked (js "  tighten ")) editorSelected)))
    as Hin by (vm_compute; tauto).
  split; [exact Hin|].
  destruct (suggest_request (js "  tighten ") editorSelected request Hin)
    as (_ & _ & _ & Hfix & _).
  exact Hfix.
Defined.

(** X10.  An apply request goes out only after the user confirmed, for
    an option that is displayed, with the non-empty id of the session
    held; under these conditions it is sent, once.  Whether it is sent
    or not, the click leaves the editor's state as it is: session and
    options stay until the reply. *)
Theorem apply_request (optionId : string) (confirmed : bool) (st : State) :
  state_of (dispatch (ApplyClicked optionId confirmed) st) = st /\
  completion_of (dispatch (ApplyClicked optionId confirmed) st) = Normal tt /\
  (forall sid oid,
     In (sid, oid) (applies (trace_of (dispatch (ApplyClicked optionId confirmed) st))) ->
     confirmed = true /\ oid = optionId /\ In optionId (applyButtons st) /\
     editSessionId st = Some sid /\ sid <> ""%string) /\
  (forall sid,
     confirmed = true -> In optionId (applyButtons st) ->
     editSessionId st = Some sid -> sid <> ""%string ->
     applies (trace_of (dispatch (ApplyClicked optionId confirmed) st))
       = [(sid, optionId)]).
Proof.
  simpl. unfold EditConsole.handleApply. unfold_M.
  destruct (bool_decide (optionId ∈ applyButtons st)) eqn:Hb.
  - apply bool_decide_eq_true in Hb. apply list_elem_of_In in Hb.
    destruct confirmed; simpl.
    + rewrite handleApplyEdit_run.
      destruct (editSessionId st) as [sid|] eqn:Hsid; simpl.
      * destruct (truthy (Some sid)) eqn:Ht; simpl.
        -- unfold truthy in Ht. apply negb_true_iff, String.eqb_neq in Ht.
           split_and!; try done.
           ++ by intros sid' oid' [[= <- <-]|[]].
           ++ by intros sid' _ _ [= <-] _.
        -- unfold truthy in Ht. apply negb_false_iff, String.eqb_eq in Ht.
           split_and!; try done. intros sid' _ _ [= <-] Hne. done.
      * split_and!; done.
    + split_and!; done.
  - apply bool_decide_eq_false in Hb. rewrite list_elem_of_In in Hb.
    split_and!; done.
Qed.

Lemma apply_request_witness :
  In "o1"%string (applyButtons editorWithOptions) /\
  applies (trace_of (dispatch (ApplyClicked "o1" true) editorWithOptions))
    = [("s1"%string, "o1"%string)].
Proof.
  assert (In "o1"%string (applyButtons editorWithOptions)) as Hin
    by (vm_compute; tauto).
  split; [exact Hin|].
  destruct (apply_request "o1" true editorWithOptions) as (_ & _ & _ & Hsend).
  apply (Hsend "s1"%string eq_refl Hin eq_refl). discriminate.
Defined.

End EditorMore.

(** ** Undo, restore and runs of events *)

Section UndoRestoreMore.
Import BookEditor.

(** X11.  An undo never throws and touches nothing but the content:
    selection, session, options and the flags are as before, so a
    stored selection survives even when the content under it changes.
    It issues at most one revert and shows at most one alert.  The
    content changes only to what the refetch returned, after a revert
    that succeeded. *)
Theorem undo_touches_content_only (env : UndoEnv) (st : State) :
  completion_of (handleUndo env st) = Normal tt /\
  manuscriptId (state_of (handleUndo env st)) = manuscriptId st /\
  selection (state_of (handleUndo env st)) = selection st /\
  editSessionId (state_of (handleUndo env st)) = editSessionId st /\
  editOptions (state_of (handleUndo env st)) = editOptions st /\
  isLoading (state_of (handleUndo env st)) = isLoading st /\
  showHistory (state_of (handleUndo env st)) = showHistory st /\
  (length (reverts (trace_of (handleUndo env st))) <= 1)%nat /\
  (length (alerts (trace_of (handleUndo env st))) <= 1)%nat /\
  (manuscriptContent (state_of (handleUndo env st)) = manuscriptContent st \/
   (revert_reply env = Normal tt /\
    refetchContent_reply env
      = Normal (manuscriptContent (state_of (handleUndo env st))) /\
    length (reverts (trace_of (handleUndo env st))) = 1%nat /\
    alerts (trace_of (handleUndo env st)) = ["Successfully undone last change!"%string])).
Proof.
  unfold handleUndo, refetchContent, setManuscriptContent. unfold_M.
  destruct (manuscriptId st) as [mid|] eqn:Hmid; [|by split_and!; simpl; auto].
  destruct (negb (truthy (Some mid))); [by split_and!; simpl; auto|].
  destruct (getHistory_reply env) as [h|err]; [|by split_and!; simpl; auto].
  destruct (versions h) as [vs|]; [|by split_and!; simpl; auto].
  destruct vs as [|cur [|prev rest]].
  - by split_and!; simpl; auto.
  - by split_and!; simpl; auto.
  - simpl. destruct (confirm_reply env); [|by split_and!; simpl; auto]. simpl.
    destruct (revert_reply env) as [[]|err]; [|by split_and!; simpl; auto].
    destruct (refetchContent_reply env) as [fresh|err];
      [|by split_and!; simpl; auto].
    split_and!; simpl; auto.
Qed.

(** X12.  When the history request or the revert request of an undo
    fails, the user is told so in one alert, the content is not fetched
    again and the editor's state is as before. *)
Theorem undo_failure_reported (env : UndoEnv) (st : State) (mid : string)
    (err : exn) :
  manuscriptId st = Some mid ->
  truthy (Some mid) = true ->
  (getHistory_reply env = Throw err \/
   (exists h cur prev rest,
      getHistory_reply env = Normal h /\
      versions h = Some (cur :: prev :: rest) /\
      confirm_reply env = true /\
      revert_reply env = Throw err)) ->
  state_of (handleUndo env st) = st /\
  alerts (trace_of (handleUndo env st))
    = ["Failed to undo. Check console for details."%string] /\
  ~ In RefetchContent (trace_of (handleUndo env st)) /\
  completion_of (handleUndo env st) = Normal tt.
Proof.
  intros Hmid Ht Hfail. unfold handleUndo, refetchContent, setManuscriptContent. unfold_M.
  rewrite Hmid, Ht. simpl.
  destruct Hfail as [->|(h & cur & prev & rest & -> & Hvs & Hc & Hr)].
  - simpl. split_and!; try done. intros [|[|[|[]]]]; done.
  - rewrite Hvs. simpl. rewrite Hc, Hr. simpl. split_and!; try done.
    intros [|[|[|[|[|[]]]]]]; done.
Qed.

Lemma undo_failure_reported_witness :
  let env := {| getHistory_reply := Normal sampleHistory;
                confirm_reply := true;
                revert_reply := Throw (JsError "Network Error");
                refetchContent_reply := Normal None |} in
  let st := editorShowing (js "A feline sat.") in
  manuscriptId st = Some "m1"%string /\
  state_of (handleUndo env st) = st /\
  reverts (trace_of (handleUndo env st)) = [("m1"%string, "v1"%string)].
Proof.
  intros env st.
  destruct (undo_failure_reported env st "m1" (JsError "Network Error")
              eq_refl eq_refl) as (Hs & _).
  { right. by eexists _, _, _, _. }
  split; [reflexivity|]. split; [exact Hs | reflexivity].
Defined.

(** X13.  A restore from the history dialog sends exactly one revert
    for the chosen version and never throws.  When the revert and the
    refetch succeed, the dialog is closed, the content is what the
    refetch returned and a success alert is shown; when the revert
    fails, the state is as before (the dialog stays open) and a failure
    alert is shown. *)
Theorem restore_outcome (env : RevertEnv) (versionId : string) (st : State)
    (mid : string) :
  manuscriptId st = Some mid ->
  truthy (Some mid) = true ->
  completion_of (handleRevertToVersion env versionId st) = Normal tt /\
  reverts (trace_of (handleRevertToVersion env versionId st)) = [(mid, versionId)] /\
  selection (state_of (handleRevertToVersion env versionId st)) = selection st /\
  editSessionId (state_of (handleRevertToVersion env versionId st))
    = editSessionId st /\
  (forall fresh,
     rv_revert_reply env = Normal tt ->
     rv_refetchContent_reply env = Normal fresh ->
     showHistory (state_of (handleRevertToVersion env versionId st)) = false /\
     manuscriptContent (state_of (handleRevertToVersion env versionId st)) = fresh /\
     alerts (trace_of (handleRevertToVersion env versionId st))
       = ["Successfully restored to selected version!"%string]) /\
  (forall err,
     rv_revert_reply env = Throw err ->
     state_of (handleRevertToVersion env versionId st) = st /\
     alerts (trace_of (handleRevertToVersion env versionId st))
       = ["Failed to restore version. Check console for details."%string]).
Proof.
  intros Hmid Ht.
  unfold handleRevertToVersion, refetchContent, setManuscriptContent, setShowHistory. unfold_M.
  rewrite Hmid, Ht. simpl.
  destruct (rv_revert_reply env) as [[]|err]; simpl.
  - destruct (rv_refetchContent_reply env) as [fresh|err]; simpl;
      split_and!; try done; by intros fresh' _ [= <-].
  - split_and!; try done; by intros err' _.
Qed.

Lemma restore_outcome_witness :
  let env := {| rv_revert_reply := Normal tt;
                rv_refetchContent_reply := Normal (Some {| content := js "A cat sat." |}) |} in
  manuscriptId editorWithOptions = Some "m1"%string /\
  showHistory editorWithOptions = true /\
  showHistory (state_of (handleRevertToVersion env "v1" editorWithOptions)) = false.
Proof.
  intros env.
  destruct (restore_outcome env "v1" editorWithOptions "m1" eq_refl eq_refl)
    as (_ & _ & _ & _ & Hok & _).
  destruct (Hok _ eq_refl eq_refl) as (Hclosed & _).
  split; [reflexivity|]. split; [reflexivity | exact Hclosed].
Defined.

(** X14.  The restore button of the history dialog never reverts to
    the version that is current (it alerts instead), and reverts to
    another version only after the user confirmed; it then sends one
    revert for that version. *)
Theorem restore_button (env : RevertEnv) (version : VersionInfo)
    (confirmed : bool) (st : State) (mid : string) :
  manuscriptId st = Some mid ->
  truthy (Some mid) = true ->
  let r := VersionHistory.handleRevert (handleRevertToVersion env)
             version confirmed st in
  reverts (trace_of r)
    = (if negb (is_current version) && confirmed then [(mid, id version)] else []) /\
  (is_current version = true ->
   state_of r = st /\
   trace_of r = [Alert "This is already the current version."]) /\
  (is_current version = false -> In (Confirm "Revert to version") (trace_of r)).
Proof.
  intros Hmid Ht r. subst r.
  rewrite (handleRevert_reverts env version confirmed st mid Hmid Ht).
  unfold VersionHistory.handleRevert. unfold_M.
  destruct (is_current version); simpl; [done|].
  split; [done|]. split; [done|]. intros _.
  destruct confirmed; simpl; [|by left].
  destruct (handleRevertToVersion env (id version) st) as [[t s'] c].
  simpl. by left.
Qed.

Lemma restore_button_witness :
  let env := {| rv_revert_reply := Normal tt;
                rv_refetchContent_reply := Normal None |} in
  let current := {| id := "v2"; version_tag := "t2"; created_at := "d2";
                    is_current := true |} in
  manuscriptId editorWithOptions = Some "m1"%string /\
  reverts (trace_of (VersionHistory.handleRevert (handleRevertToVersion env)
                       current true editorWithOptions)) = [].
Proof.
  intros env current.
  destruct (restore_button env current true editorWithOptions "m1"
              eq_refl eq_refl) as (Hr & _).
  split; [reflexivity | exact Hr].
Defined.

End UndoRestoreMore.

Section Runs.
Import BookEditor.

Lemma handleTextSelection_frame (a b : Z) (t : jsstring) (st : State) :
  suggests (trace_of (handleTextSelection a b t st)) = [] /\
  completion_of (handleTextSelection a b t st) = Normal tt /\
  isLoading (state_of (handleTextSelection a b t st)) = isLoading st /\
  manuscriptId (state_of (handleTextSelection a b t st)) = manuscriptId st.
Proof.
  rewrite run_handleTextSelection.
  destruct (manuscriptContent st) as [mc|]; [|done].
  destruct (_ && _); [|done]. by destruct (streq _ t).
Qed.

(** A mouse-up sends no suggestion request, never throws and leaves the
    loading flag and the manuscript id alone. *)
Lemma viewer_mouseUp_frame (dom : Dom) (st : State) :
  suggests (trace_of (viewer_mouseUp dom st)) = [] /\
  completion_of (viewer_mouseUp dom st) = Normal tt /\
  isLoading (state_of (viewer_mouseUp dom st)) = isLoading st /\
  manuscriptId (state_of (viewer_mouseUp dom st)) = manuscriptId st.
Proof.
  assert (forall a t pre,
            suggests pre = [] ->
            let r := handleTextSelection a (a + jslength t) t st in
            suggests (pre ++ trace_of r ++ [SetIsSelecting false]) = [] /\
            completion_of r = Normal tt /\
            isLoading (state_of r) = isLoading st /\
            manuscriptId (state_of r) = manuscriptId st) as Hcall.
  { intros a t pre Hpre r. subst r.
    destruct (handleTextSelection_frame a (a + jslength t) t st) as (H1 & H2 & H3 & H4).
    rewrite !suggests_app, Hpre, H1. done. }
  unfold viewer_mouseUp, ManuscriptViewer.handleMouseUp. unfold_M.
  destruct (manuscriptContent st) as [mc|] eqn:Hmc; [|done].
  destruct (negb (truthy (manuscriptId st))); [done|].
  destruct (negb (contentRef_current dom)); [done|].
  destruct (windowSelection dom) as [ws|]; [|done].
  destruct (rangeCount ws =? 0)%nat; [done|].
  destruct (jslength (trim (range_toString ws)) =? 0); [done|].
  destruct (textBeforeSelection_length ws) as [a|err].
  - destruct ((0 <=? a) && _ && _).
    + specialize (Hcall a (range_toString ws) [ConsoleLog "Selection details:"] eq_refl).
      cbv zeta in Hcall. unfold trace_of, state_of, completion_of in Hcall.
      destruct (handleTextSelection a _ _ st) as [[t1 s1] c1].
      simpl in *. destruct Hcall as (H1 & -> & H3 & H4). done.
    + destruct (negb (indexOf (content mc) (trim (range_toString ws)) =? -1));
        [|done].
      specialize (Hcall (indexOf (content mc) (trim (range_toString ws)))
                    (trim (range_toString ws))
                    [ConsoleLog "Selection details:";
                     ConsoleWarn "Selection indices out of bounds, trying fallback"]
                    eq_refl).
      cbv zeta in Hcall. unfold trace_of, state_of, completion_of in Hcall.
      destruct (handleTextSelection _ _ _ st) as [[t1 s1] c1].
      simpl in *. destruct Hcall as (H1 & -> & H3 & H4). done.
  - destruct (negb (indexOf (content mc) (trim (range_toString ws)) =? -1));
      [|done].
    specialize (Hcall (indexOf (content mc) (trim (range_toString ws)))
                  (trim (range_toString ws))
                  [ConsoleError "Selection error:"] eq_refl).
    cbv zeta in Hcall. unfold trace_of, state_of, completion_of in Hcall.
    destruct (handleTextSelection _ _ _ st) as [[t1 s1] c1].
    simpl in *. destruct Hcall as (H1 & -> & H3 & H4). done.
Qed.

Lemma handleUndo_frame (env : UndoEnv) (st : State) :
  suggests (trace_of (handleUndo env st)) = [] /\
  completion_of (handleUndo env st) = Normal tt /\
  isLoading (state_of (handleUndo env st)) = isLoading st /\
  editSessionId (state_of (handleUndo env st)) = editSessionId st /\
  editOptions (state_of (handleUndo env st)) = editOptions st.
Proof.
  unfold handleUndo, refetchContent, setManuscriptContent. unfold_M.
  destruct (manuscriptId st) as [mid|]; [|done].
  destruct (negb (truthy (Some mid))); [done|].
  destruct (getHistory_reply env) as [h|err]; [|done].
  destruct (versions h) as [vs|]; [|done].
  destruct vs as [|cur [|prev rest]]; try done. simpl.
  destruct (confirm_reply env); [|done]. simpl.
  destruct (revert_reply env); [|done].
  destruct (refetchContent_reply env); done.
Qed.

Lemma handleRevertToVersion_frame (env : RevertEnv) (v : string) (st : State) :
  suggests (trace_of (handleRevertToVersion env v st)) = [] /\
  completion_of (handleRevertToVersion env v st) = Normal tt /\
  isLoading (state_of (handleRevertToVersion env v st)) = isLoading st /\
  editSessionId (state_of (handleRevertToVersion env v st)) = editSessionId st /\
  editOptions (state_of (handleRevertToVersion env v st)) = editOptions st.
Proof.
  unfold handleRevertToVersion, refetchContent, setManuscriptContent, setShowHistory. unfold_M.
  destruct (manuscriptId st) as [mid|]; [|done].
  destruct (negb (truthy (Some mid))); [done|].
  destruct (rv_revert_reply env); [|done].
  destruct (rv_refetchContent_reply env); done.
Qed.

Lemma apply_frame (optionId : string) (confirmed : bool) (st : State) :
  state_of (dispatch (ApplyClicked optionId confirmed) st) = st /\
  completion_of (dispatch (ApplyClicked optionId confirmed) st) = Normal tt /\
  suggests (trace_of (dispatch (ApplyClicked optionId confirmed) st)) = [].
Proof.
  simpl. unfold EditConsole.handleApply. unfold_M.
  destruct (bool_decide (optionId ∈ applyButtons st)); [|done].
  destruct confirmed; [|done]. simpl. rewrite handleApplyEdit_run.
  destruct (editSessionId st) as [sid|]; [|done].
  by destruct (truthy (Some sid)).
Qed.

(** What one event does to the loading flag, the suggestion requests,
    and the pair of session and options. *)
Lemma dispatch_frame (ev : event) (st : State) :
  let r := dispatch ev st in
  completion_of r = Normal tt /\
  ((isSuggestReply ev = true /\ suggests (trace_of r) = [] /\
    isLoading (state_of r) = false) \/
   (isSuggestReply ev = false /\ suggests (trace_of r) = [] /\
    isLoading (state_of r) = isLoading st) \/
   (isSuggestReply ev = false /\ isLoading st = false /\
    isLoading (state_of r) = true /\
    exists request, suggests (trace_of r) = [request])) /\
  ((editSessionId (state_of r) = editSessionId st /\
    editOptions (state_of r) = editOptions st) \/
   (editSessionId (state_of r) = None /\ editOptions (state_of r) = []) \/
   (exists id, editSessionId (state_of r) = Some id)).
Proof.
  destruct ev; cbv zeta.
  - change (dispatch (MouseUp dom) st) with (viewer_mouseUp dom st).
    destruct (viewer_mouseUp_frame dom st) as (H1 & H2 & H3 & _).
    split; [done|]. split; [right; left; done|].
    destruct (outcome_session st _ (viewer_mouseUp_outcome dom st))
      as [_ [[Hs _]|(sel & Hs & _)]]; rewrite Hs; auto.
  - pose proof (dispatch_suggest instruction0 st) as H. cbv zeta in H.
    assert (dispatch (SuggestClicked instruction0) st = ([], st, Normal tt) ->
            completion_of (dispatch (SuggestClicked instruction0) st) = Normal tt /\
            ((isSuggestReply (SuggestClicked instruction0) = true /\
              suggests (trace_of (dispatch (SuggestClicked instruction0) st)) = [] /\
              isLoading (state_of (dispatch (SuggestClicked instruction0) st)) = false) \/
             (isSuggestReply (SuggestClicked instruction0) = false /\
              suggests (trace_of (dispatch (SuggestClicked instruction0) st)) = [] /\
              isLoading (state_of (dispatch (SuggestClicked instruction0) st))
                = isLoading st) \/
             (isSuggestReply (SuggestClicked instruction0) = false /\
              isLoading st = false /\
              isLoading (state_of (dispatch (SuggestClicked instruction0) st)) = true /\
              exists request,
                suggests (trace_of (dispatch (SuggestClicked instruction0) st))
                  = [request])) /\
            ((editSessionId (state_of (dispatch (SuggestClicked instruction0) st))
                = editSessionId st /\
              editOptions (state_of (dispatch (SuggestClicked instruction0) st))
                = editOptions st) \/
             (editSessionId (state_of (dispatch (SuggestClicked instruction0) st)) = None /\
              editOptions (state_of (dispatch (SuggestClicked instruction0) st)) = []) \/
             (exists id, editSessionId (state_of (dispatch (SuggestClicked instruction0) st))
                         = Some id))) as Hidle.
    { intros ->. split; [done|]. split; [right; left; done | left; done]. }
    destruct (selection st) as [sel|] eqn:Hsel; [|by apply Hidle].
    destruct (manuscriptId st) as [mid|] eqn:Hmid; [|by apply Hidle].
    destruct (negb (streq (trim instruction0) [])) eqn:Ht; simpl in H;
      [|by apply Hidle].
    destruct (isLoading st) eqn:Hl; simpl in H; [by apply Hidle|].
    destruct (truthy (Some mid)) eqn:Hm; [|by apply Hidle].
    destruct H as [Hs Hload]. clear Hidle.
    assert (completion_of (dispatch (SuggestClicked instruction0) st) = Normal tt /\
            editSessionId (state_of (dispatch (SuggestClicked instruction0) st))
              = editSessionId st /\
            editOptions (state_of (dispatch (SuggestClicked instruction0) st))
              = editOptions st) as (Hc & He & Ho).
    { simpl. unfold EditConsole.handleSuggest, handleSuggestEdits, setIsLoading.
      unfold_M. apply negb_true_iff in Ht. rewrite Ht, Hl. simpl.
      rewrite Hsel. simpl. rewrite Hsel, Hmid, Hm. done. }
    split; [done|]. split; [|left; done].
    right. right. split; [done|]. split; [done|]. split; [done|]. by eexists.
  - simpl. split; [done|]. split; [left; done|]. right. right. by eexists.
  - simpl. split; [done|]. split; [left; done | left; done].
  - destruct (apply_frame optionId confirmed st) as (Hs & Hc & Hsg).
    rewrite Hs. split; [done|]. split; [right; left; done | left; done].
  - simpl. split; [done|]. split; [right; left; done|]. right. left. done.
  - simpl. split; [done|]. split; [right; left; done | left; done].
  - change (dispatch (UndoClicked env) st) with (handleUndo env st).
    destruct (handleUndo_frame env st) as (H1 & H2 & H3 & H4 & H5).
    split; [done|]. split; [right; left; done | left; done].
  - simpl. unfold VersionHistory.handleRevert. unfold_M.
    destruct (showHistory st);
      [|split; [done|]; split; [right; left; done | left; done]].
    destruct (is_current version);
      [split; [done|]; split; [right; left; done | left; done]|].
    destruct confirmed;
      [|split; [done|]; split; [right; left; done | left; done]].
    destruct (handleRevertToVersion_frame env (id version) st)
      as (H1 & H2 & H3 & H4 & H5).
    destruct (handleRevertToVersion env (id version) st) as [[t s'] c].
    unfold trace_of, state_of, completion_of in *. simpl in *. subst c.
    split; [done|]. split; [right; left; done | left; done].
  - simpl. split; [done|]. split; [right; left; done | left; done].
  - simpl. split; [done|]. split; [right; left; done | left; done].
  - simpl. split; [done|]. split; [right; left; done | left; done].
Qed.

(** X15.  No event handler of the editor lets an exception escape,
    whatever the DOM reports, the user answers and the service replies:
    failures of requests end in the handlers' own catch blocks. *)
Theorem no_handler_throws (ev : event) (st : State) :
  completion_of (dispatch ev st) = Normal tt.
Proof. exact (proj1 (dispatch_frame ev st)). Qed.

(** X16.  Through any run of events the editor shows options only
    together with a session: if no option is shown without a session at
    the start, none is at the end. *)
Theorem options_need_session (evs : list event) (st : State) :
  optionsHaveSession st -> optionsHaveSession (state_of (runEvents evs st)).
Proof.
  revert st. induction evs as [|ev evs IH]; intros st Hinv; [done|].
  destruct (runEvents_cons ev evs st) as [_ ->]. apply IH.
  destruct (dispatch_frame ev st) as (_ & _ & [[He Ho]|[[He Ho]|[id He]]]);
    unfold optionsHaveSession in *.
  - rewrite He, Ho. exact Hinv.
  - by rewrite Ho.
  - by rewrite He.
Qed.

Lemma options_need_session_witness :
  optionsHaveSession (editorShowing (js "Hello world")) /\
  optionsHaveSession
    (state_of (runEvents [MouseUp (mouseUpAt (js "Hello") (Normal 0));
                          ApplyFailed]
                 (editorShowing (js "Hello world")))).
Proof.
  assert (optionsHaveSession (editorShowing (js "Hello world"))) as H
    by (intros Hn; discriminate Hn).
  split; [exact H|]. by apply options_need_session.
Defined.

Lemma runEvents_loading (evs : list event) (st : State) :
  (forall ev, In ev evs -> isSuggestReply ev = false) ->
  (isLoading st = true -> suggests (trace_of (runEvents evs st)) = []) /\
  (length (suggests (trace_of (runEvents evs st))) <= 1)%nat.
Proof.
  revert st. induction evs as [|ev evs IH]; intros st Hevs.
  { split; simpl; [done | lia]. }
  destruct (runEvents_cons ev evs st) as [-> _]. rewrite suggests_app.
  destruct (IH (state_of (dispatch ev st))) as [IHl IHn].
  { intros ev' Hin. apply Hevs. by right. }
  destruct (dispatch_frame ev st)
    as (_ & [(Hrep & _)|[(_ & Hs & Hl)|(_ & Hl & Hl' & request & Hs)]] & _).
  - rewrite Hevs in Hrep by (by left). done.
  - rewrite Hs. simpl. split; [|done]. intros Hload. apply IHl. congruence.
  - rewrite Hs, (IHl Hl'). simpl. split; [congruence | lia].
Qed.

(** X17.  At most one suggestion request is pending: in a run of events
    without a reply to a suggestion request at most one such request is
    sent, and none while the editor is loading. *)
Theorem one_pending_suggestion (evs : list event) (st : State) :
  (forall ev, In ev evs -> isSuggestReply ev = false) ->
  (length (suggests (trace_of (runEvents evs st))) <= 1)%nat /\
  (isLoading st = true -> suggests (trace_of (runEvents evs st)) = []).
Proof.
  intros Hevs. destruct (runEvents_loading evs st Hevs) as [H1 H2]. done.
Qed.

Lemma one_pending_suggestion_witness :
  let evs := [SuggestClicked (js "tighten"); SuggestClicked (js "tighten");
              MouseUp (mouseUpAt (js "cat") (Normal 2));
              SuggestClicked (js "expand")] in
  (forall ev, In ev evs -> isSuggestReply ev = false) /\
  length (suggests (trace_of (runEvents evs editorSelected))) = 1%nat.
Proof.
  intros evs.
  assert (forall ev, In ev evs -> isSuggestReply ev = false) as Hevs.
  { intros ev Hin. simpl in Hin.
    repeat (destruct Hin as [<-|Hin]; [reflexivity|]). done. }
  split; [exact Hevs|].
  pose proof (proj1 (one_pending_suggestion evs editorSelected Hevs)) as Hle.
  assert (length (suggests (trace_of (runEvents evs editorSelected))) <> 0%nat)
    as Hne by (vm_compute; congruence).
  lia.
Defined.

End Runs.

Section LoaderAndInvariants.
Import BookEditor.



Example load_storage_full :
  loadManuscript {| fetched := Normal (js " m2 ");
                    setItem_reply := Throw (JsError "QuotaExceededError");
                    getItem_reply := Normal (Some (js "m1")) |}
  = ([SetManuscriptId (js "m2"); SetManuscriptId (js "m1")], Normal tt).
Proof. reflexivity. Qed.

(** What an event that does not reload the content does to the
    selection. *)
Lemma dispatch_selection (ev : event) (st : State) :
  changesContent ev = false ->
  manuscriptContent (state_of (dispatch ev st)) = manuscriptContent st /\
  (selection (state_of (dispatch ev st)) = selection st \/
   selection (state_of (dispatch ev st)) = None \/
   exists sel mc, selection (state_of (dispatch ev st)) = Some sel /\
                  manuscriptContent st = Some mc /\
                  validSelection (content mc) sel).
Proof.
  destruct ev; try done; intros _.
  - change (dispatch (MouseUp dom) st) with (viewer_mouseUp dom st).
    pose proof (viewer_mouseUp_outcome dom st) as Hout.
    destruct (viewer_mouseUp dom st) as [[t s'] c].
    unfold state_of. simpl.
    inversion Hout as [t0 Hs|t0 mc sel Hmc Hv _ _ _ _]; subst.
    + auto.
    + split; [done|]. right. right. by exists sel, mc.
  - pose proof (dispatch_suggest instruction0 st) as H. cbv zeta in H.
    assert (dispatch (SuggestClicked instruction0) st = ([], st, Normal tt) ->
            manuscriptContent (state_of (dispatch (SuggestClicked instruction0) st))
              = manuscriptContent st /\
            (selection (state_of (dispatch (SuggestClicked instruction0) st))
               = selection st \/
             selection (state_of (dispatch (SuggestClicked instruction0) st)) = None \/
             exists sel mc,
               selection (state_of (dispatch (SuggestClicked instruction0) st))
                 = Some sel /\
               manuscriptContent st = Some mc /\
               validSelection (content mc) sel)) as Hidle.
    { intros ->. auto. }
    destruct (selection st) as [sel|] eqn:Hsel; [|by apply Hidle].
    destruct (manuscriptId st) as [mid|] eqn:Hmid; [|by apply Hidle].
    destruct (negb (streq (trim instruction0) [])) eqn:Ht; simpl in H;
      [|by apply Hidle].
    destruct (isLoading st) eqn:Hl; simpl in H; [by apply Hidle|].
    destruct (truthy (Some mid)) eqn:Hm; [|by apply Hidle].
    clear H Hidle. simpl.
    unfold EditConsole.handleSuggest, handleSuggestEdits, setIsLoading.
    unfold_M. apply negb_true_iff in Ht. rewrite Ht, Hl. simpl.
    rewrite Hsel. simpl. rewrite Hsel, Hmid, Hm. simpl. auto.
  - simpl. auto.
  - simpl. auto.
  - destruct (apply_frame optionId confirmed st) as (-> & _). auto.
  - simpl. auto.
  - simpl. auto.
  - simpl. auto.
  - simpl. auto.
Qed.

(** X19.  As long as the content is not reloaded (no content reply, no
    undo, no restore), the stored selection stays valid for the content
    shown: through any such run of events, if the selection fits the
    content at the start it fits at the end. *)
Theorem selection_stays_valid (evs : list event) (st : State) :
  (forall ev, In ev evs -> changesContent ev = false) ->
  selectionFits st -> selectionFits (state_of (runEvents evs st)).
Proof.
  revert st. induction evs as [|ev evs IH]; intros st Hevs Hfit; [done|].
  destruct (runEvents_cons ev evs st) as [_ ->]. apply IH.
  { intros ev' Hin. apply Hevs. by right. }
  destruct (dispatch_selection ev st) as [Hc Hs]; [apply Hevs; by left|].
  unfold selectionFits in *. intros sel mc Hsel Hmc. rewrite Hc in Hmc.
  destruct Hs as [Hs|[Hs|(sel' & mc' & Hs & Hmc' & Hv)]].
  - rewrite Hs in Hsel. by apply Hfit.
  - rewrite Hs in Hsel. done.
  - rewrite Hs in Hsel. injection Hsel as <-.
    rewrite Hmc in Hmc'. injection Hmc' as <-. done.
Qed.

Lemma selection_stays_valid_witness :
  let evs := [MouseUp (mouseUpAt (js "Hello") (Normal 0));
              SuggestClicked (js "tighten")] in
  let st := editorShowing (js "Hello world") in
  (forall ev, In ev evs -> changesContent ev = false) /\
  selectionFits st /\
  selection (state_of (runEvents evs st))
    = Some {| start := 0; end_ := 5; text := js "Hello" |} /\
  selectionFits (state_of (runEvents evs st)).
Proof.
  intros evs st.
  assert (forall ev, In ev evs -> changesContent ev = false) as Hevs.
  { intros ev Hin. simpl in Hin.
    repeat (destruct Hin as [<-|Hin]; [reflexivity|]). done. }
  assert (selectionFits st) as Hfit by (intros sel mc Hsel; discriminate Hsel).
  split; [exact Hevs|]. split; [exact Hfit|]. split; [reflexivity|].
  exact (selection_stays_valid evs st Hevs Hfit).
Defined.

(** X20.  A revert request comes only from an undo or from the restore
    button, and always carries the editor's manuscript id, which is not
    empty.  From the restore button it is for a version that is not
    current, after the user confirmed, with the dialog open. *)
Theorem revert_requests_origin (ev : event) (st : State) (mid v : string) :
  In (mid, v) (reverts (trace_of (dispatch ev st))) ->
  manuscriptId st = Some mid /\ mid <> ""%string /\
  ((exists env, ev = UndoClicked env /\ confirm_reply env = true) \/
   (exists env version,
      ev = RestoreClicked version true env /\
      is_current version = false /\ v = id version /\ showHistory st = true)).
Proof.
  assert (forall m, truthy (Some m) = true -> m <> ""%string) as Hne.
  { intros m H. unfold truthy in H. by apply negb_true_iff, String.eqb_neq in H. }
  destruct ev.
  - change (dispatch (MouseUp dom) st) with (viewer_mouseUp dom st).
    destruct (viewer_mouseUp_outcome dom st) as [t (_ & _ & _ & Hr)|t mc sel _ _ _ _ _ Hr];
      unfold trace_of; simpl; rewrite Hr; done.
  - pose proof (dispatch_suggest instruction0 st) as H. cbv zeta in H.
    intros Hin. exfalso. revert Hin.
    assert (dispatch (SuggestClicked instruction0) st = ([], st, Normal tt) ->
            In (mid, v) (reverts (trace_of (dispatch (SuggestClicked instruction0) st)))
            -> False) as Hidle.
    { intros ->. done. }
    destruct (selection st) as [sel|] eqn:Hsel; [|by apply Hidle].
    destruct (manuscriptId st) as [m|] eqn:Hmid; [|by apply Hidle].
    destruct (negb (streq (trim instruction0) [])) eqn:Ht; simpl in H;
      [|by apply Hidle].
    destruct (isLoading st) eqn:Hl; simpl in H; [by apply Hidle|].
    destruct (truthy (Some m)) eqn:Hm; [|by apply Hidle].
    clear H Hidle. simpl.
    unfold EditConsole.handleSuggest, handleSuggestEdits, setIsLoading.
    unfold_M. apply negb_true_iff in Ht. rewrite Ht, Hl. simpl.
    rewrite Hsel. simpl. rewrite Hsel, Hmid, Hm. simpl. done.
  - done.
  - done.
  - simpl. unfold EditConsole.handleApply. unfold_M.
    destruct (bool_decide (optionId ∈ applyButtons st)); [|done].
    destruct confirmed; [|done]. simpl. rewrite handleApplyEdit_run.
    destruct (editSessionId st) as [sid|]; [|done].
    by destruct (truthy (Some sid)).
  - done.
  - done.
  - change (dispatch (UndoClicked env) st) with (handleUndo env st).
    unfold handleUndo, refetchContent, setManuscriptContent. unfold_M.
    destruct (manuscriptId st) as [m|] eqn:Hmid; [|done].
    destruct (truthy (Some m)) eqn:Hm; simpl; [|done].
    destruct (getHistory_reply env) as [h|err]; [|done].
    destruct (versions h) as [vs|]; [|done].
    destruct vs as [|cur [|prev rest]]; try done. simpl.
    destruct (confirm_reply env) eqn:Hc; [|done]. simpl.
    assert (In (mid, v) [(m, id prev)] ->
            Some m = Some mid /\ mid <> ""%string /\
            ((exists env0, UndoClicked env = UndoClicked env0 /\
                           confirm_reply env0 = true) \/
             (exists env0 version,
                UndoClicked env = RestoreClicked version true env0 /\
                is_current version = false /\ v = id version /\
                showHistory st = true))) as Hgoal.
    { intros [[= <- <-]|[]]. split; [done|]. split; [by apply Hne|].
      left. by exists env. }
    destruct (revert_reply env); [|exact Hgoal].
    destruct (refetchContent_reply env); exact Hgoal.
  - simpl. unfold VersionHistory.handleRevert. unfold_M.
    destruct (showHistory st) eqn:Hshow; [|done].
    destruct (is_current version) eqn:Hcur; [done|].
    destruct confirmed; [|done].
    unfold handleRevertToVersion, refetchContent, setManuscriptContent, setShowHistory. unfold_M.
    destruct (manuscriptId st) as [m|] eqn:Hmid; [|done].
    destruct (truthy (Some m)) eqn:Hm; simpl; [|done].
    assert (In (mid, v) [(m, id version)] ->
            Some m = Some mid /\ mid <> ""%string /\
            ((exists env0, RestoreClicked version true env = UndoClicked env0 /\
                           confirm_reply env0 = true) \/
             (exists env0 version0,
                RestoreClicked version true env = RestoreClicked version0 true env0 /\
                is_current version0 = false /\ v = id version0 /\
                true = true))) as Hgoal.
    { intros [[= <- <-]|[]]. split; [done|]. split; [by apply Hne|].
      right. by exists env, version. }
    destruct (rv_revert_reply env); [|exact Hgoal].
    destruct (rv_refetchContent_reply env); exact Hgoal.
  - done.
  - done.
  - done.
Qed.

Lemma revert_requests_origin_witness :
  let st := editorShowing (js "A feline sat.") in
  let ev := UndoClicked (undoEnv sampleHistory true) in
  In ("m1"%string, "v1"%string) (reverts (trace_of (dispatch ev st))) /\
  manuscriptId st = Some "m1"%string.
Proof.
  intros st ev.
  assert (In ("m1"%string, "v1"%string) (reverts (trace_of (dispatch ev st))))
    as Hin by (vm_compute; tauto).
  split; [exact Hin|].
  exact (proj1 (revert_requests_origin ev st "m1" "v1" Hin)).
Defined.

End LoaderAndInvariants.
